(** * finance_app: the store, authentication and dashboard aggregation of app.py

    A shallow embedding of [src/app.py].  The SQLite tables are lists of rows
    in insertion order; a primary key is not built into the type but checked
    by the INSERT statements, as the database does.  A stored amount ([REAL]
    column, Python float) is the exact rational value of the double, and the
    sums and the mean of the dashboard metrics are taken over these values.
    The budget alerts compare a quotient of doubles with doubles: they are
    embedded over IEEE 754 binary64 floats, in the module [Ieee].  Python
    strings are [string]s whose characters are code points below 256. *)

From Stdlib Require Import List String Ascii Bool ZArith QArith Lia.
From Stdlib Require Import Permutation Sorted DecimalString OrderedTypeEx.
From Stdlib Require Floats.
Import ListNotations.
Open Scope string_scope.
Open Scope Z_scope.

(** ** Python string helpers *)

Module PyStr.

(** [str.isspace] on one character, for code points below 256. *)
Definition is_space (c : ascii) : bool :=
  let n := nat_of_ascii c in
  (((9 <=? n) && (n <=? 13)) || ((28 <=? n) && (n <=? 32))
   || (n =? 133) || (n =? 160))%nat.

Fixpoint lstrip (s : string) : string :=
  match s with
  | EmptyString => EmptyString
  | String c rest => if is_space c then lstrip rest else s
  end.

(** The string read backwards, used to strip the right end. *)
Fixpoint rev_onto (s acc : string) : string :=
  match s with
  | EmptyString => acc
  | String c rest => rev_onto rest (String c acc)
  end.

Definition rev (s : string) : string := rev_onto s EmptyString.

Definition rstrip (s : string) : string := rev (lstrip (rev s)).

(** [s.strip()] *)
Definition strip (s : string) : string := rstrip (lstrip s).

(** Truthiness of a string: [not s] holds for the empty string only. *)
Definition truthy (s : string) : bool :=
  match s with
  | EmptyString => false
  | String _ _ => true
  end.

Fixpoint all_space (s : string) : bool :=
  match s with
  | EmptyString => true
  | String c rest => is_space c && all_space rest
  end.

Definition first_is_space (s : string) : bool :=
  match s with
  | EmptyString => false
  | String c _ => is_space c
  end.

(** No whitespace at either end. *)
Definition trimmed (s : string) : bool :=
  negb (first_is_space s) && negb (first_is_space (rev s)).

Fixpoint contains (c : ascii) (s : string) : bool :=
  match s with
  | EmptyString => false
  | String d rest => Ascii.eqb c d || contains c rest
  end.

End PyStr.

(** ** The database *)

Record UserRow := mkUser { u_username : string; u_password : string }.

Record CategoryRow := mkCategory { c_username : string; c_category : string }.

Record ExpenseRow := mkExpense {
  e_id : Z;
  e_username : string;
  e_date : string;
  e_category : string;
  e_amount : Q;
  e_description : string
}.

Record BudgetRow := mkBudget {
  b_username : string;
  b_category : string;
  b_monthly_limit : Q
}.

(** The four tables of [init_db], and the [sqlite_sequence] entry that
    AUTOINCREMENT keeps for [expenses]. *)
Record Db := mkDb {
  users : list UserRow;
  categories : list CategoryRow;
  expenses : list ExpenseRow;
  expenses_seq : Z;
  budget : list BudgetRow
}.

Definition empty_db : Db := mkDb [] [] [] 0 [].

(** The outcome of a statement that may raise [sqlite3.IntegrityError]. *)
Inductive SqlResult (A : Type) : Type :=
| Done (a : A)
| IntegrityError.
Arguments Done {A} a.
Arguments IntegrityError {A}.

Module Sql.

Definition user_key (u : string) (r : UserRow) : bool :=
  String.eqb (u_username r) u.

Definition category_key (u c : string) (r : CategoryRow) : bool :=
  String.eqb (c_username r) u && String.eqb (c_category r) c.

Definition expense_ref (u c : string) (r : ExpenseRow) : bool :=
  String.eqb (e_username r) u && String.eqb (e_category r) c.

Definition budget_key (u c : string) (r : BudgetRow) : bool :=
  String.eqb (b_username r) u && String.eqb (b_category r) c.

(** INSERT INTO users: the primary key [username] rejects a second row. *)
Definition insert_user (u h : string) (db : Db) : SqlResult Db :=
  if existsb (user_key u) (users db) then IntegrityError
  else Done (mkDb (users db ++ [mkUser u h]) (categories db)
                  (expenses db) (expenses_seq db) (budget db)).

(** INSERT INTO categories: primary key [(username, category)]. *)
Definition insert_category (u c : string) (db : Db) : SqlResult Db :=
  if existsb (category_key u c) (categories db) then IntegrityError
  else Done (mkDb (users db) (categories db ++ [mkCategory u c])
                  (expenses db) (expenses_seq db) (budget db)).

(** INSERT OR IGNORE INTO categories: a conflicting row is skipped. *)
Definition insert_or_ignore_category (u c : string) (db : Db) : Db :=
  match insert_category u c db with
  | Done db' => db'
  | IntegrityError => db
  end.

(** DELETE FROM categories WHERE username=? AND category=? *)
Definition delete_category_rows (u c : string) (db : Db) : Db :=
  mkDb (users db)
       (filter (fun r => negb (category_key u c r)) (categories db))
       (expenses db) (expenses_seq db) (budget db).

Definition max_id (rows : list ExpenseRow) : Z :=
  fold_right (fun r m => Z.max (e_id r) m) 0 rows.

(** The rowid AUTOINCREMENT picks: one more than the largest rowid the
    table has ever held. *)
Definition next_expense_id (db : Db) : Z :=
  Z.max (expenses_seq db) (max_id (expenses db)) + 1.

(** INSERT INTO expenses (username, date, category, amount, description) *)
Definition insert_expense (u d c : string) (a : Q) (descr : string)
           (db : Db) : Db :=
  let i := next_expense_id db in
  mkDb (users db) (categories db)
       (expenses db ++ [mkExpense i u d c a descr]) i (budget db).

(** DELETE FROM expenses WHERE id = ? *)
Definition delete_expense_rows (i : Z) (db : Db) : Db :=
  mkDb (users db) (categories db)
       (filter (fun r => negb (e_id r =? i)) (expenses db))
       (expenses_seq db) (budget db).

(** INSERT OR REPLACE INTO budget: the conflicting row is deleted, then the
    new row is inserted. *)
Definition insert_or_replace_budget (u c : string) (l : Q) (db : Db) : Db :=
  mkDb (users db) (categories db) (expenses db) (expenses_seq db)
       (filter (fun r => negb (budget_key u c r)) (budget db)
        ++ [mkBudget u c l]).

(** SELECT password FROM users WHERE username = ? ; fetchone() *)
Definition select_password (u : string) (db : Db) : option string :=
  option_map u_password (find (user_key u) (users db)).

(** SELECT COUNT( * ) FROM expenses WHERE username=? AND category=? *)
Definition count_expenses (u c : string) (db : Db) : nat :=
  List.length (filter (expense_ref u c) (expenses db)).

(** SELECT COUNT( * ) FROM budget WHERE username=? AND category=? *)
Definition count_budget (u c : string) (db : Db) : nat :=
  List.length (filter (budget_key u c) (budget db)).

End Sql.

Definition DEFAULT_CATEGORIES : list string :=
  ["Food"; "Transport"; "Health"; "Entertainment"; "Other"].

(** ** Auth helpers and store operations

    [hashlib.sha256(...).hexdigest()] is library code: the operations are
    stated for an arbitrary hash function. *)

Section Operations.

Variable hash_password : string -> string.

(** The rows are written under one connection; when the first INSERT
    raises, the connection is closed without a commit and the database is
    as before. *)
Definition signup_user (username password : string) (db : Db) : bool * Db :=
  match Sql.insert_user username (hash_password password) db with
  | Done db1 =>
      (true,
       fold_left (fun acc cat => Sql.insert_or_ignore_category username cat acc)
                 DEFAULT_CATEGORIES db1)
  | IntegrityError => (false, db)
  end.

Definition login_user (username password : string) (db : Db) : bool :=
  match Sql.select_password username db with
  | Some stored => String.eqb stored (hash_password password)
  | None => false
  end.

Definition user_exists (username : string) (db : Db) : bool :=
  match find (Sql.user_key username) (users db) with
  | Some _ => true
  | None => false
  end.

Definition add_category (username category : string) (db : Db) : bool * Db :=
  if negb (PyStr.truthy category) then (false, db)
  else match Sql.insert_category username (PyStr.strip category) db with
       | Done db' => (true, db')
       | IntegrityError => (false, db)
       end.

Definition delete_category (username category : string) (db : Db) : Db :=
  let exp_count := Sql.count_expenses username category db in
  let bud_count := Sql.count_budget username category db in
  if (exp_count =? 0)%nat && (bud_count =? 0)%nat
  then Sql.delete_category_rows username category db
  else db.

(** [float(amount)] is the identity on the modelled amounts. *)
Definition add_expense (username date_str category : string) (amount : Q)
           (description : string) (db : Db) : Db :=
  Sql.insert_expense username date_str category amount
                     (PyStr.strip description) db.

Definition delete_expense (expense_id : Z) (db : Db) : Db :=
  Sql.delete_expense_rows expense_id db.

Definition set_budget (username category : string) (limit : Q) (db : Db) : Db :=
  Sql.insert_or_replace_budget username category limit db.

(** The exposed operations that write to the store. *)
Inductive Op : Type :=
| OpSignup (username password : string)
| OpAddCategory (username category : string)
| OpDeleteCategory (username category : string)
| OpAddExpense (username date_str category : string) (amount : Q)
               (description : string)
| OpDeleteExpense (expense_id : Z)
| OpSetBudget (username category : string) (limit : Q).

Definition exec (op : Op) (db : Db) : Db :=
  match op with
  | OpSignup u p => snd (signup_user u p db)
  | OpAddCategory u c => snd (add_category u c db)
  | OpDeleteCategory u c => delete_category u c db
  | OpAddExpense u d c a descr => add_expense u d c a descr db
  | OpDeleteExpense i => delete_expense i db
  | OpSetBudget u c l => set_budget u c l db
  end.

(** The states a run of operations reaches from the freshly created
    database. *)
Inductive reachable : Db -> Prop :=
| reach_init : reachable empty_db
| reach_step : forall db op, reachable db -> reachable (exec op db).

End Operations.

(** ** Data frames

    [get_expenses] and [get_budget] read the rows of one user into a frame.
    The date column holds the stored text, or a timestamp once
    [pd.to_datetime] has been applied to it. *)

Record DfRow (D : Type) := mkDfRow {
  df_id : Z;
  df_date : D;
  df_category : string;
  df_amount : Q;
  df_description : string
}.
Arguments mkDfRow {D} _ _ _ _ _.
Arguments df_id {D} _.
Arguments df_date {D} _.
Arguments df_category {D} _.
Arguments df_amount {D} _.
Arguments df_description {D} _.

Record BudRow := mkBudRow { bd_category : string; bd_monthly_limit : Q }.

Definition get_expenses (username : string) (db : Db) : list (DfRow string) :=
  map (fun r => mkDfRow (e_id r) (e_date r) (e_category r) (e_amount r)
                        (e_description r))
      (filter (fun r => String.eqb (e_username r) username) (expenses db)).

(** The budget rows of one user, in the order of the table. *)
Definition budget_rows (username : string) (db : Db) : list BudRow :=
  map (fun r => mkBudRow (b_category r) (b_monthly_limit r))
      (filter (fun r => String.eqb (b_username r) username) (budget db)).

(** One row enters a listing that is kept in ascending order of the
    category. *)
Fixpoint insert_by_category (r : BudRow) (l : list BudRow) : list BudRow :=
  match l with
  | [] => [r]
  | x :: rest =>
      if String.leb (bd_category r) (bd_category x) then r :: l
      else x :: insert_by_category r rest
  end.

Definition by_category (l : list BudRow) : list BudRow :=
  fold_right insert_by_category [] l.

(** [SELECT category, monthly_limit FROM budget WHERE username = ?]: the
    rows of the user are found through the index of the primary key
    [(username, category)], which lists them by category. *)
Definition get_budget (username : string) (db : Db) : list BudRow :=
  by_category (budget_rows username db).

(** A calendar day ([datetime.date]) and a timestamp of the date column. *)
Record CalDate := mkDate { year : Z; month : Z; day : Z }.

Record Timestamp := mkTs { ts_date : CalDate; ts_nanos : Z }.

Definition date_eqb (a b : CalDate) : bool :=
  (year a =? year b) && (month a =? month b) && (day a =? day b).

Definition date_ltb (a b : CalDate) : bool :=
  (year a <? year b)
  || ((year a =? year b)
      && ((month a <? month b)
          || ((month a =? month b) && (day a <? day b)))).

(** [strftime('%Y-%m')]: the key is kept as the pair it prints. *)
Definition current_month_key (dt : Timestamp) : Z * Z :=
  (year (ts_date dt), month (ts_date dt)).

Definition month_key_eqb (a b : Z * Z) : bool :=
  (fst a =? fst b) && (snd a =? snd b).

Definition month_filter (df : list (DfRow Timestamp)) (dt : Timestamp)
  : list (DfRow Timestamp) :=
  match df with
  | [] => df
  | _ => let key := current_month_key dt in
         filter (fun r => month_key_eqb (current_month_key (df_date r)) key) df
  end.



Section GroupBy.

Context {K : Type}.
Variables (keqb kltb : K -> K -> bool).

(** One row enters the running groups, which are kept sorted by key. *)
Fixpoint group_add (k : K) (v : Q) (groups : list (K * Q)) : list (K * Q) :=
  match groups with
  | [] => [(k, v)]
  | (k', v') :: rest =>
      if keqb k k' then (k', (v' + v)%Q) :: rest
      else if kltb k k' then (k, v) :: groups
      else (k', v') :: group_add k v rest
  end.

(** [df.groupby(key)[val].sum()] *)
Definition groupby_sum {R : Type} (key : R -> K) (val : R -> Q)
           (rows : list R) : list (K * Q) :=
  fold_left (fun groups r => group_add (key r) (val r) groups) rows [].




End GroupBy.

(** The laws the key comparisons of a group-by obey. *)
Class KeyOrder {K : Type} (keqb kltb : K -> K -> bool) : Prop := {
  keqb_eq : forall a b, keqb a b = true <-> a = b;
  kltb_irrefl : forall a, kltb a a = false;
  kltb_trans : forall a b c,
      kltb a b = true -> kltb b c = true -> kltb a c = true;
  kltb_total : forall a b,
      keqb a b = false -> kltb a b = false -> kltb b a = true
}.

(** ** Dashboard metrics *)



(** What the dashboard tab shows: the notice that there is no data yet for
    a user without expenses, else the figures of the frame filtered to the
    month of [datetime.now()]. *)
Inductive Dashboard : Type :=
| NoDataYet
| Figures (month_expenses : list (DfRow Timestamp)).

Definition dashboard (exp_df : list (DfRow Timestamp)) (now : Timestamp)
  : Dashboard :=
  match exp_df with
  | [] => NoDataYet
  | _ => Figures (month_filter exp_df now)
  end.

(** ** Budget overview

    The frame of line 283 over the stored values: the budget rows of the
    user, each with the amount spent in its category. *)

Record MergedRow := mkMerged {
  m_category : string;
  m_monthly_limit : Q;
  m_amount : Q
}.

Definition spent_by_cat (month_expenses : list (DfRow Timestamp))
  : list (string * Q) :=
  match month_expenses with
  | [] => []
  | _ => groupby_sum String.eqb String.ltb df_category df_amount month_expenses
  end.

(** [pd.merge(bud_df, spent_by_cat, on='category', how='left')]: every budget
    row is kept, once per matching row on the right, or once with a missing
    amount. *)
Definition merge_left (bud_df : list BudRow) (spent : list (string * Q))
  : list (BudRow * option Q) :=
  flat_map
    (fun b =>
       match filter (fun s => String.eqb (fst s) (bd_category b)) spent with
       | [] => [(b, None)]
       | hits => map (fun s => (b, Some (snd s))) hits
       end)
    bud_df.

(** [.fillna({'amount': 0.0})] on one cell *)
Definition fillna (x : option Q) : Q :=
  match x with
  | Some q => q
  | None => 0%Q
  end.

Definition merged_frame (bud_df : list BudRow)
           (month_expenses : list (DfRow Timestamp)) : list MergedRow :=
  map (fun p =>
         mkMerged (bd_category (fst p)) (bd_monthly_limit (fst p))
                  (fillna (snd p)))
      (merge_left bud_df (spent_by_cat month_expenses)).

(** ** Export

    [df.to_csv(index=False)] with the default dialect: comma separated, a
    field is quoted only when it holds the delimiter, the quote character or
    a line break, every record ends with a line feed.  [repr] of a float is
    library code and stays a parameter. *)

Module Csv.

Definition LF : ascii := "010"%char.
Definition CR : ascii := "013"%char.
Definition QUOTE : ascii := "034"%char.
Definition COMMA : ascii := ","%char.

Definition needs_quoting (s : string) : bool :=
  PyStr.contains COMMA s || PyStr.contains QUOTE s
  || PyStr.contains LF s || PyStr.contains CR s.

(** Every quote character inside a quoted field is doubled. *)
Fixpoint double_quotes (s : string) : string :=
  match s with
  | EmptyString => EmptyString
  | String c rest =>
      if Ascii.eqb c QUOTE then String QUOTE (String QUOTE (double_quotes rest))
      else String c (double_quotes rest)
  end.

Definition field (s : string) : string :=
  if needs_quoting s
  then String QUOTE (double_quotes s ++ String QUOTE EmptyString)
  else s.

(** [str] of an integer *)
Definition repr_int (z : Z) : string :=
  DecimalString.NilZero.string_of_int (Z.to_int z).

Definition header : string :=
  "id,date,category,amount,description" ++ String LF EmptyString.

Fixpoint count_char (c : ascii) (s : string) : nat :=
  match s with
  | EmptyString => O
  | String d rest => ((if Ascii.eqb c d then 1 else 0) + count_char c rest)%nat
  end.

(** The number of lines of a text whose lines all end with a line feed. *)
Definition line_count (s : string) : nat := count_char LF s.

Section Writer.

Variable repr_float : Q -> string.

Definition record (r : DfRow string) : string :=
  repr_int (df_id r) ++ String COMMA
    (field (df_date r) ++ String COMMA
       (field (df_category r) ++ String COMMA
          (repr_float (df_amount r) ++ String COMMA
             (field (df_description r) ++ String LF EmptyString)))).

Definition to_csv (df : list (DfRow string)) : string :=
  header ++ String.concat EmptyString (map record df).

(** The export tab: the download is offered only for a frame with rows. *)
Definition export_csv (df : list (DfRow string)) : option string :=
  match df with
  | [] => None
  | _ => Some (to_csv df)
  end.

(** The line feeds that the fields of a record carry inside them. *)
Definition embedded_line_feeds (r : DfRow string) : nat :=
  (count_char LF (df_date r)
   + count_char LF (df_category r)
   + count_char LF (repr_float (df_amount r))
   + count_char LF (df_description r))%nat.

End Writer.

End Csv.

(** ** Formats named by the specification *)

Definition is_digit (c : ascii) : bool :=
  let n := nat_of_ascii c in ((48 <=? n) && (n <=? 57))%nat.

(** The text has the shape YYYY-MM-DD. *)
Definition is_iso_date (s : string) : bool :=
  match list_ascii_of_string s with
  | [y1; y2; y3; y4; d1; m1; m2; d2; dd1; dd2] =>
      is_digit y1 && is_digit y2 && is_digit y3 && is_digit y4
      && Ascii.eqb d1 "-" && is_digit m1 && is_digit m2
      && Ascii.eqb d2 "-" && is_digit dd1 && is_digit dd2
  | _ => false
  end.

(** ** What the specification says, in its own words

    These definitions follow the specification; the theorems below compare
    them with the code above. *)

Module Spec.






(** addExpense as the specification words it: the row that is stored has a
    positive amount, a trimmed description, a date of the shape YYYY-MM-DD and
    an id no other expense has. *)
Definition addExpense_stores_checked_row
           (owner date category : string) (amount : Q) (description : string)
           (db : Db) : Prop :=
  exists row : ExpenseRow,
    expenses (add_expense owner date category amount description db)
    = (expenses db ++ [row])%list
    /\ (0 < e_amount row)%Q
    /\ e_description row = PyStr.strip description
    /\ is_iso_date (e_date row) = true
    /\ forall r, In r (expenses db) -> e_id r <> e_id row.

(** Export as the specification words it: a text of one header line and one
    line per expense, also for no expenses. *)
Definition export_has_header_and_rows (repr_float : Q -> string)
           (df : list (DfRow string)) : Prop :=
  exists out,
    Csv.export_csv repr_float df = Some out
    /\ Csv.line_count out = S (List.length df).

End Spec.

(** ** Category listing

    [SELECT category FROM categories WHERE username = ? ORDER BY category]:
    the names of one user in ascending order of the text (the column has the
    default, character by character, collation). *)

Fixpoint insert_sorted (s : string) (l : list string) : list string :=
  match l with
  | [] => [s]
  | x :: rest => if String.leb s x then s :: l else x :: insert_sorted s rest
  end.

Definition order_by (l : list string) : list string :=
  fold_right insert_sorted [] l.

Definition get_categories (username : string) (db : Db) : list string :=
  order_by
    (map c_category
         (filter (fun r => String.eqb (c_username r) username) (categories db))).

(** ** Budget alerts

    Lines 281 to 291.  The columns [amount], [monthly_limit] and [status] of
    the frames are float64: the status is the IEEE 754 quotient of two
    doubles, and the loop compares doubles with the doubles [0], [1] and
    [0.8], the last being the double nearest to 8/10.  The frames are
    embedded over binary64 floats.  The sum pandas takes over one group is
    the parameter [series_sum]: it is given the amounts of the rows of the
    group, in the order of the rows. *)

Module Ieee.

Import PrimFloat.

(** A row of the month's expenses and a row of the budget frame. *)
Record Expense := expense_row {
  x_id : Z;
  x_date : Timestamp;
  x_category : string;
  x_amount : float;
  x_description : string
}.

Record Budget := budget_row { l_category : string; l_monthly_limit : float }.

(** A row of [merged] once the status column is added. *)
Record Merged := merged_row {
  r_category : string;
  r_monthly_limit : float;
  r_amount : float;
  r_status : float
}.

Inductive AlertKind : Type :=
| OverBudget      (* st.warning: Over budget in ... *)
| AlmostAtLimit.  (* st.info: Almost at limit for ... *)

Record Alert := mkAlert {
  a_kind : AlertKind;
  a_category : string;
  a_amount : float;
  a_limit : float
}.

(** The literal [0.8]: the double nearest to 8/10. *)
Definition point_eight : float := 0x1.999999999999ap-1%float.

Section Frames.

Variable series_sum : list float -> float.

(** The keys of [groupby('category')]: the categories that occur, each once,
    in ascending order. *)
Definition group_keys (rows : list Expense) : list string :=
  order_by (nodup string_dec (map x_category rows)).

(** The amounts of the rows of one group, in the order of the rows. *)
Definition group_amounts (cat : string) (rows : list Expense) : list float :=
  map x_amount (filter (fun r => String.eqb (x_category r) cat) rows).

(** [groupby('category')['amount'].sum().reset_index()] *)
Definition groupby_sum (rows : list Expense) : list (string * float) :=
  map (fun k => (k, series_sum (group_amounts k rows))) (group_keys rows).

Definition spent_by_cat (month_expenses : list Expense)
  : list (string * float) :=
  match month_expenses with
  | [] => []
  | _ => groupby_sum month_expenses
  end.

(** [pd.merge(bud_df, spent_by_cat, on='category', how='left')]: every budget
    row is kept, once per matching row on the right, or once with NaN for
    the missing amount. *)
Definition merge_left (bud_df : list Budget) (spent : list (string * float))
  : list (Budget * float) :=
  flat_map
    (fun b =>
       match filter (fun s => String.eqb (fst s) (l_category b)) spent with
       | [] => [(b, nan)]
       | hits => map (fun s => (b, snd s)) hits
       end)
    bud_df.

(** [.fillna({'amount': 0.0})] on one cell: NaN becomes 0.0. *)
Definition fillna (x : float) : float := if is_nan x then 0%float else x.

(** [merged], with [merged['status'] = merged['amount'] /
    merged['monthly_limit']]. *)
Definition merged_frame (bud_df : list Budget) (month_expenses : list Expense)
  : list Merged :=
  map (fun p =>
         let amount := fillna (snd p) in
         let limit := l_monthly_limit (fst p) in
         merged_row (l_category (fst p)) limit amount (amount / limit)%float)
      (merge_left bud_df (spent_by_cat month_expenses)).

(** The body of the loop over the merged rows. *)
Definition row_alert (row : Merged) : option Alert :=
  if (r_monthly_limit row <=? 0)%float then None
  else if (1 <? r_status row)%float then
    Some (mkAlert OverBudget (r_category row) (r_amount row)
                  (r_monthly_limit row))
  else if (point_eight <? r_status row)%float then
    Some (mkAlert AlmostAtLimit (r_category row) (r_amount row)
                  (r_monthly_limit row))
  else None.

(** The alerts of the dashboard, in the order they are shown. *)
Definition budget_alerts (bud_df : list Budget) (month_expenses : list Expense)
  : list Alert :=
  match bud_df with
  | [] => []
  | _ => flat_map (fun row => match row_alert row with
                              | Some a => [a]
                              | None => []
                              end)
                  (merged_frame bud_df month_expenses)
  end.

(** spent, as the specification words it: the sum of the month's expenses of
    the category, 0 if there is none.  A sum that is not a number counts as
    0, as [fillna] has it. *)
Definition spent (cat : string) (month_expenses : list Expense) : float :=
  match group_amounts cat month_expenses with
  | [] => 0%float
  | amounts => fillna (series_sum amounts)
  end.

End Frames.

(** Summation from 0.0 in the order of the rows. *)
Definition sum_in_order (amounts : list float) : float :=
  fold_left add amounts 0%float.

(** Sample frames: budgets and a month of spending. *)
Definition sample_day (d : Z) : Timestamp := mkTs (mkDate 2024 3 d) 0.

Definition sample_budget : list Budget :=
  [ budget_row "Food" 100%float; budget_row "Health" 0%float;
    budget_row "Other" 200%float; budget_row "Transport" 50%float ].

Definition sample_spending : list Expense :=
  [ expense_row 1 (sample_day 1) "Food" 100%float "groceries";
    expense_row 2 (sample_day 1) "Transport" 45%float "train";
    expense_row 3 (sample_day 2) "Health" 20%float "pharmacy";
    expense_row 4 (sample_day 9) "Food" 50%float "dinner" ].

(** The doubles nearest to 0.1, 0.2 and 0.3. *)
Definition point_one : float := 0x1.999999999999ap-4%float.

Definition point_two : float := 0x1.999999999999ap-3%float.

Definition point_three : float := 0x1.3333333333333p-2%float.

(** A budget of 0.3 with 0.1 and 0.2 spent, and a budget of 1 with 0.8
    spent. *)
Definition sample_small_budget : list Budget :=
  [ budget_row "Food" point_three; budget_row "Other" 1%float ].

Definition sample_small_spending : list Expense :=
  [ expense_row 1 (sample_day 1) "Food" point_one "tea";
    expense_row 2 (sample_day 2) "Other" point_eight "stamp";
    expense_row 3 (sample_day 3) "Food" point_two "milk" ].

End Ieee.

(** ** Date texts

    [strftime] with the directives the app uses.  For the years 1000 to 9999
    %Y prints four digits; %m and %d print two, padded with a zero. *)

Definition digit_char (n : Z) : ascii :=
  ascii_of_nat (48 + Z.to_nat (n mod 10)).

Definition pad2 (n : Z) : string :=
  String (digit_char (n / 10)) (String (digit_char n) EmptyString).

Definition pad4 (n : Z) : string :=
  String (digit_char (n / 1000)) (String (digit_char (n / 100)) (pad2 n)).

(** [d.strftime('%Y-%m-%d')] *)
Definition strftime_Y_m_d (d : CalDate) : string :=
  pad4 (year d) ++ "-" ++ pad2 (month d) ++ "-" ++ pad2 (day d).

(** [dt.strftime('%Y-%m')], the text of [current_month_key] *)
Definition strftime_Y_m (dt : Timestamp) : string :=
  pad4 (year (ts_date dt)) ++ "-" ++ pad2 (month (ts_date dt)).

(** The dates a date widget or a timestamp can hold, as far as the texts
    above depend on them. *)
Definition printable_date (d : CalDate) : Prop :=
  1000 <= year d <= 9999 /\ 1 <= month d <= 12 /\ 1 <= day d <= 31.

(** ** The pages of the app

    One run of [main] handles at most one button.  The session keeps the
    logged-in user ([st.session_state.auth_user]); the widgets hand their
    values to the handler of the button that was pressed. *)

Record Session := mkSession { s_db : Db; auth_user : option string }.

Inductive Message : Type :=
| LoggedIn          (* st.success: Logged in successfully *)
| InvalidLogin      (* st.error: Invalid username or password. *)
| FillBothFields    (* st.error: Please fill both fields. *)
| UsernameExists    (* st.warning: Username already exists *)
| AccountCreated    (* st.success: Account created! *)
| FailedToCreate.   (* st.error: Failed to create account. *)

Section Pages.

Variable hash_password : string -> string.

(** The entry the category box shows when the user has no category; its
    text is not needed below. *)
Variable no_categories_label : string.

(** The Login button *)
Definition login_click (username password : string) (s : Session)
  : Session * Message :=
  if login_user hash_password username password (s_db s)
  then (mkSession (s_db s) (Some username), LoggedIn)
  else (s, InvalidLogin).

(** The Create Account button *)
Definition create_account_click (new_user new_pass : string) (s : Session)
  : Session * Message :=
  if negb (PyStr.truthy new_user) || negb (PyStr.truthy new_pass)
  then (s, FillBothFields)
  else if user_exists new_user (s_db s) then (s, UsernameExists)
  else
    let r := signup_user hash_password new_user new_pass (s_db s) in
    if fst r then (mkSession (snd r) (auth_user s), AccountCreated)
    else (mkSession (snd r) (auth_user s), FailedToCreate).

(** The Logout button *)
Definition logout_click (s : Session) : Session :=
  mkSession (s_db s) None.

(** The options of the category box of the Add Expense tab *)
Definition category_options (categories : list string) : list string :=
  match categories with
  | [] => [no_categories_label]
  | _ => categories
  end.

(** The Add Expense button *)
Definition add_expense_click (username : string) (d : CalDate)
           (category : string) (amount : Q) (desc : string) (db : Db) : Db :=
  add_expense username (strftime_Y_m_d d) category amount desc db.

(** The Save Budget button *)
Definition save_budget_click (username bcat : string) (blimit : Q) (db : Db)
  : Db :=
  set_budget username bcat blimit db.

(** The Delete Expense button *)
Definition delete_expense_click (del_id : Z) (db : Db) : Db :=
  delete_expense del_id db.

(** One run of the script in which a button was pressed.  Logged out, only
    the login and sign-up tabs are drawn; logged in, only the logout button
    and the tabs of the user.  A select box returns one of its options, a
    number input with [min_value=0.01] a number from 0.01 on, the date input
    a date; the Save Budget button is drawn only when the user has
    categories, the Delete Expense button only when the user has expenses. *)
Inductive ui_step : Session -> Session -> Prop :=
| step_login : forall s username password,
    auth_user s = None ->
    ui_step s (fst (login_click username password s))
| step_create_account : forall s new_user new_pass,
    auth_user s = None ->
    ui_step s (fst (create_account_click new_user new_pass s))
| step_logout : forall s username,
    auth_user s = Some username ->
    ui_step s (logout_click s)
| step_add_expense : forall s username d category amount desc,
    auth_user s = Some username ->
    printable_date d ->
    In category (category_options (get_categories username (s_db s))) ->
    (1 # 100 <= amount)%Q ->
    ui_step s (mkSession
                 (add_expense_click username d category amount desc (s_db s))
                 (Some username))
| step_save_budget : forall s username bcat blimit,
    auth_user s = Some username ->
    In bcat (get_categories username (s_db s)) ->
    (1 # 100 <= blimit)%Q ->
    ui_step s (mkSession (save_budget_click username bcat blimit (s_db s))
                         (Some username))
| step_delete_expense : forall s username del_id,
    auth_user s = Some username ->
    In del_id (map df_id (get_expenses username (s_db s))) ->
    ui_step s (mkSession (delete_expense_click del_id (s_db s))
                         (Some username)).

(** The sessions the app reaches from a fresh database, nobody logged in. *)
Inductive ui_reachable : Session -> Prop :=
| ui_init : ui_reachable (mkSession empty_db None)
| ui_next : forall s s', ui_reachable s -> ui_step s s' -> ui_reachable s'.

End Pages.

(** ** Notions the properties of the store are stated with *)

(** The primary key of a budget row. *)
Definition budget_pk (r : BudgetRow) : string * string :=
  (b_username r, b_category r).

(** The ids in the table are pairwise distinct, positive, and none exceeds
    the counter AUTOINCREMENT keeps. *)
Definition ids_in_sequence (db : Db) : Prop :=
  NoDup (map e_id (expenses db))
  /\ Forall (fun r => 0 < e_id r <= expenses_seq db) (expenses db).

Definition string_le (a b : string) : Prop := String.leb a b = true.

(** The order of a budget listing. *)
Definition category_le (a b : BudRow) : Prop :=
  String.leb (bd_category a) (bd_category b) = true.

(** No stored category name has whitespace at its ends. *)
Definition names_trimmed (db : Db) : Prop :=
  forall r, In r (categories db) -> PyStr.trimmed (c_category r) = true.

(** The username has a row in the users table. *)
Definition registered (u : string) (db : Db) : Prop :=
  In u (map u_username (users db)).

(** What the pages keep true of the data they write: whoever is logged in
    has an account; usernames are not empty and every user has the default
    categories; every category, expense and budget row belongs to a user and
    names a default category; amounts and limits are at least 0.01, dates
    have the shape YYYY-MM-DD, descriptions are trimmed; ids are distinct. *)
Definition well_formed (s : Session) : Prop :=
  (forall u, auth_user s = Some u -> registered u (s_db s))
  /\ (forall u, registered u (s_db s) ->
         u <> EmptyString
         /\ forall c, In c DEFAULT_CATEGORIES ->
                      In (mkCategory u c) (categories (s_db s)))
  /\ (forall r, In r (categories (s_db s)) ->
         registered (c_username r) (s_db s)
         /\ In (c_category r) DEFAULT_CATEGORIES)
  /\ (forall e, In e (expenses (s_db s)) ->
         registered (e_username e) (s_db s)
         /\ In (e_category e) DEFAULT_CATEGORIES
         /\ (1 # 100 <= e_amount e)%Q
         /\ is_iso_date (e_date e) = true
         /\ PyStr.trimmed (e_description e) = true)
  /\ (forall b, In b (budget (s_db s)) ->
         registered (b_username b) (s_db s)
         /\ In (b_category b) DEFAULT_CATEGORIES
         /\ (1 # 100 <= b_monthly_limit b)%Q)
  /\ ids_in_sequence (s_db s).

(** ** Sample data for the concrete runs *)

(** A stand-in hash for the concrete runs below: every statement above holds
    for any hash function. *)
Definition toy_hash (s : string) : string := "h:" ++ s.

Definition db_alice : Db :=
  snd (signup_user toy_hash "alice" "secret" empty_db).

(** [repr] of a float with a whole value, for the concrete runs. *)
Definition repr_whole_float (q : Q) : string :=
  Csv.repr_int (Qnum q / Z.pos (Qden q)) ++ ".0".

Definition db_two_expenses : Db :=
  add_expense "alice" "2024-03-16" "Transport" 45 " train "
    (add_expense "alice" "2024-03-15" "Food" 12 "lunch, with tip" db_alice).




(** A run of the pages: two users sign up, each logs in and adds an
    expense, then the second one deletes hers. *)
Definition sample_label : string := "- No categories -".

Definition session_0 : Session := mkSession empty_db None.

Definition session_1 : Session :=
  fst (create_account_click toy_hash "alice" "secret" session_0).

Definition session_2 : Session :=
  fst (create_account_click toy_hash "bob" "pw" session_1).

Definition session_3 : Session :=
  fst (login_click toy_hash "bob" "pw" session_2).

Definition session_4 : Session :=
  mkSession (add_expense_click "bob" (mkDate 2024 3 14) "Food" 8 "snack"
                               (s_db session_3))
            (Some "bob").

Definition session_5 : Session := logout_click session_4.

Definition session_6 : Session :=
  fst (login_click toy_hash "alice" "secret" session_5).

Definition session_7 : Session :=
  mkSession (add_expense_click "alice" (mkDate 2024 3 15) "Food" 12 " lunch "
                               (s_db session_6))
            (Some "alice").

Definition session_8 : Session :=
  mkSession (delete_expense_click 2 (s_db session_7)) (Some "alice").

(** * Properties *)

(** ** Lists and tables *)

Lemma find_hd_filter {A : Type} (f : A -> bool) (l : list A) :
  find f l = hd_error (filter f l).
Proof.
  induction l as [|x l IH]; simpl; [reflexivity|].
  destruct (f x); simpl; [reflexivity|exact IH].
Qed.

Lemma find_none_existsb {A : Type} (f : A -> bool) (l : list A) :
  find f l = None <-> existsb f l = false.
Proof.
  induction l as [|x l IH]; simpl; [tauto|].
  destruct (f x); simpl; [split; discriminate|exact IH].
Qed.

Lemma find_app_fresh {A : Type} (f : A -> bool) (l : list A) (x : A) :
  find f l = None -> f x = true -> find f (l ++ [x]) = Some x.
Proof.
  induction l as [|y l IH]; simpl; intros Hl Hx.
  - now rewrite Hx.
  - destruct (f y); [discriminate|auto].
Qed.

Lemma filter_length_zero {A : Type} (f : A -> bool) (l : list A) :
  List.length (filter f l) = O <-> existsb f l = false.
Proof.
  induction l as [|x l IH]; simpl; [tauto|].
  destruct (f x); simpl; [split; discriminate|exact IH].
Qed.

Lemma category_key_spec (u c : string) (r : CategoryRow) :
  Sql.category_key u c r = true <-> r = mkCategory u c.
Proof.
  unfold Sql.category_key. destruct r as [u' c']; simpl.
  rewrite andb_true_iff, !String.eqb_eq.
  split; [intros [-> ->]; reflexivity|intros [= -> ->]; auto].
Qed.

Lemma existsb_category_key (u c : string) (l : list CategoryRow) :
  existsb (Sql.category_key u c) l = true <-> In (mkCategory u c) l.
Proof.
  rewrite existsb_exists. split.
  - intros [r [Hin Hk]]. apply category_key_spec in Hk. now subst.
  - intros Hin. exists (mkCategory u c). split; [exact Hin|].
    now apply category_key_spec.
Qed.

Lemma NoDup_snoc {A : Type} (l : list A) (x : A) :
  NoDup l -> ~ In x l -> NoDup (l ++ [x]).
Proof.
  intros Hl Hx. apply NoDup_app; [exact Hl|repeat constructor; intros []|].
  intros y Hy [<-|[]]. exact (Hx Hy).
Qed.

(** ** Strings *)

Lemma append_assoc (s t u : string) : ((s ++ t) ++ u = s ++ (t ++ u))%string.
Proof. induction s as [|c s IH]; simpl; [reflexivity|now rewrite IH]. Qed.

Lemma append_empty_r (s : string) : (s ++ EmptyString = s)%string.
Proof. induction s as [|c s IH]; simpl; [reflexivity|now rewrite IH]. Qed.

Lemma rev_onto_append (s acc : string) :
  PyStr.rev_onto s acc = (PyStr.rev s ++ acc)%string.
Proof.
  unfold PyStr.rev. revert acc.
  induction s as [|c s IH]; intros acc; simpl; [reflexivity|].
  rewrite (IH (String c acc)), (IH (String c EmptyString)).
  now rewrite append_assoc.
Qed.

Lemma rev_append (s t : string) :
  PyStr.rev (s ++ t) = (PyStr.rev t ++ PyStr.rev s)%string.
Proof.
  induction s as [|c s IH]; simpl.
  - now rewrite append_empty_r.
  - unfold PyStr.rev at 1 3. simpl. rewrite !rev_onto_append, IH.
    now rewrite append_assoc.
Qed.

Lemma rev_involutive (s : string) : PyStr.rev (PyStr.rev s) = s.
Proof.
  induction s as [|c s IH]; [reflexivity|].
  unfold PyStr.rev at 2. simpl. rewrite rev_onto_append, rev_append, IH.
  reflexivity.
Qed.

Lemma all_space_append (s t : string) :
  PyStr.all_space (s ++ t) = PyStr.all_space s && PyStr.all_space t.
Proof.
  induction s as [|c s IH]; simpl; [reflexivity|].
  now rewrite IH, andb_assoc.
Qed.

Lemma all_space_rev (s : string) :
  PyStr.all_space (PyStr.rev s) = PyStr.all_space s.
Proof.
  induction s as [|c s IH]; [reflexivity|].
  unfold PyStr.rev. simpl. rewrite rev_onto_append, all_space_append, IH.
  simpl. rewrite andb_true_r. apply andb_comm.
Qed.

Lemma lstrip_split (s : string) :
  exists pre, s = (pre ++ PyStr.lstrip s)%string /\ PyStr.all_space pre = true.
Proof.
  induction s as [|c s [pre [Hs Hpre]]]; [now exists EmptyString|].
  simpl. destruct (PyStr.is_space c) eqn:Hc.
  - exists (String c pre). simpl. rewrite Hc, Hpre. now rewrite <- Hs.
  - now exists EmptyString.
Qed.

Lemma lstrip_first (s : string) :
  PyStr.first_is_space (PyStr.lstrip s) = false.
Proof.
  induction s as [|c s IH]; [reflexivity|]. simpl.
  destruct (PyStr.is_space c) eqn:Hc; [exact IH|]. simpl. exact Hc.
Qed.

Lemma rstrip_split (s : string) :
  exists post, s = (PyStr.rstrip s ++ post)%string
               /\ PyStr.all_space post = true.
Proof.
  destruct (lstrip_split (PyStr.rev s)) as [pre [Hs Hpre]].
  exists (PyStr.rev pre). split.
  - unfold PyStr.rstrip. rewrite <- rev_append, <- Hs.
    now rewrite rev_involutive.
  - now rewrite all_space_rev.
Qed.

Lemma rstrip_first (s : string) :
  PyStr.first_is_space s = false ->
  PyStr.first_is_space (PyStr.rstrip s) = false.
Proof.
  intros Hs. destruct (rstrip_split s) as [post [Heq _]].
  destruct (PyStr.rstrip s) as [|c r]; [reflexivity|].
  rewrite Heq in Hs. exact Hs.
Qed.

(** [strip] removes a run of whitespace at each end, and all of it. *)
Lemma strip_spec (s : string) :
  exists pre post,
    s = (pre ++ PyStr.strip s ++ post)%string
    /\ PyStr.all_space pre = true /\ PyStr.all_space post = true
    /\ PyStr.trimmed (PyStr.strip s) = true.
Proof.
  destruct (lstrip_split s) as [pre [Hpre Hsp]].
  destruct (rstrip_split (PyStr.lstrip s)) as [post [Hpost Hsq]].
  exists pre, post. unfold PyStr.strip. split; [|split; [|split]]; auto.
  - now rewrite <- Hpost.
  - unfold PyStr.trimmed. rewrite (rstrip_first _ (lstrip_first s)).
    unfold PyStr.rstrip. now rewrite rev_involutive, lstrip_first.
Qed.

(** ** Authentication *)

Section AuthFacts.

Variable hash : string -> string.

Lemma insert_or_ignore_category_users (u c : string) (db : Db) :
  users (Sql.insert_or_ignore_category u c db) = users db.
Proof.
  unfold Sql.insert_or_ignore_category, Sql.insert_category.
  destruct (existsb _ _); reflexivity.
Qed.

Lemma seed_categories_users (u : string) (cats : list string) (db : Db) :
  users (fold_left (fun acc cat => Sql.insert_or_ignore_category u cat acc)
                   cats db) = users db.
Proof.
  revert db. induction cats as [|c cats IH]; intros db; simpl; [reflexivity|].
  rewrite IH. apply insert_or_ignore_category_users.
Qed.

Lemma user_exists_existsb (u : string) (db : Db) :
  user_exists u db = existsb (Sql.user_key u) (users db).
Proof.
  unfold user_exists.
  destruct (find (Sql.user_key u) (users db)) as [row|] eqn:Hf.
  - symmetry. apply existsb_exists. exists row.
    apply find_some in Hf. exact Hf.
  - symmetry. now apply find_none_existsb.
Qed.

(** After a successful signup the stored row of the user is the new one. *)
Lemma signup_user_fresh (u p : string) (db : Db) :
  user_exists u db = false ->
  fst (signup_user hash u p db) = true
  /\ Sql.select_password u (snd (signup_user hash u p db)) = Some (hash p).
Proof.
  intros Hfree. rewrite user_exists_existsb in Hfree.
  unfold signup_user, Sql.insert_user. rewrite Hfree. cbn [fst snd].
  split; [reflexivity|].
  unfold Sql.select_password.
  rewrite (seed_categories_users u DEFAULT_CATEGORIES). simpl users.
  rewrite (find_app_fresh _ _ (mkUser u (hash p))).
  - reflexivity.
  - now apply find_none_existsb.
  - unfold Sql.user_key. simpl. apply String.eqb_refl.
Qed.

(** C7: when the username is not yet taken, signup succeeds, a login with
    the same credentials then returns true, and a login with any password
    whose hash differs from the hash of the signup password returns false. *)
Theorem signup_then_login (u p : string) (db : Db) :
  user_exists u db = false ->
  fst (signup_user hash u p db) = true
  /\ login_user hash u p (snd (signup_user hash u p db)) = true
  /\ forall p', hash p' <> hash p ->
                login_user hash u p' (snd (signup_user hash u p db)) = false.
Proof.
  intros Hfree. destruct (signup_user_fresh u p db Hfree) as [Hok Hrow].
  split; [exact Hok|]. unfold login_user. rewrite Hrow. split.
  - apply String.eqb_refl.
  - intros p' Hne. apply String.eqb_neq. congruence.
Qed.

(** C8: a signup under a username that is already present returns false and
    hands back the database as it was: the stored password hash of that user,
    and every table, are unchanged. *)
Theorem signup_taken_unchanged (u p : string) (db : Db) :
  user_exists u db = true ->
  signup_user hash u p db = (false, db)
  /\ Sql.select_password u (snd (signup_user hash u p db))
     = Sql.select_password u db.
Proof.
  intros Htaken. rewrite user_exists_existsb in Htaken.
  unfold signup_user, Sql.insert_user. rewrite Htaken. split; reflexivity.
Qed.

(** C10: login reads nothing but the rows of the users table stored under
    the given username: two databases whose users tables hold the same rows
    for that username (none in both, or the same ones) give the same answer,
    whatever else they hold. *)
Theorem login_depends_on_user_row (u p : string) (db1 db2 : Db) :
  filter (Sql.user_key u) (users db1) = filter (Sql.user_key u) (users db2) ->
  login_user hash u p db1 = login_user hash u p db2.
Proof.
  intros Hrows. unfold login_user, Sql.select_password.
  now rewrite !find_hd_filter, Hrows.
Qed.

End AuthFacts.

Lemma signup_then_login_witness :
  fst (signup_user toy_hash "bob" "pw" db_alice) = true
  /\ login_user toy_hash "bob" "pw"
       (snd (signup_user toy_hash "bob" "pw" db_alice)) = true
  /\ forall p', toy_hash p' <> toy_hash "pw" ->
       login_user toy_hash "bob" p'
         (snd (signup_user toy_hash "bob" "pw" db_alice)) = false.
Proof.
  apply (signup_then_login toy_hash "bob" "pw" db_alice). reflexivity.
Defined.

Lemma signup_taken_unchanged_witness :
  signup_user toy_hash "alice" "other" db_alice = (false, db_alice)
  /\ Sql.select_password "alice"
       (snd (signup_user toy_hash "alice" "other" db_alice))
     = Sql.select_password "alice" db_alice.
Proof.
  apply (signup_taken_unchanged toy_hash "alice" "other" db_alice). reflexivity.
Defined.

Lemma login_depends_on_user_row_witness :
  login_user toy_hash "alice" "secret" db_alice
  = login_user toy_hash "alice" "secret"
      (add_expense "bob" "2024-03-15" "Food" 12 "lunch"
         (snd (signup_user toy_hash "bob" "pw" db_alice))).
Proof.
  apply (login_depends_on_user_row toy_hash "alice" "secret"). reflexivity.
Defined.

(** ** Categories *)

Lemma delete_category_blocked (u c : string) (db : Db) :
  (0 < Sql.count_expenses u c db \/ 0 < Sql.count_budget u c db)%nat ->
  delete_category u c db = db.
Proof.
  intros Href. unfold delete_category.
  destruct (Sql.count_expenses u c db), (Sql.count_budget u c db);
    simpl; try reflexivity.
  destruct Href; lia.
Qed.

Lemma delete_category_free (u c : string) (db : Db) :
  Sql.count_expenses u c db = O -> Sql.count_budget u c db = O ->
  delete_category u c db = Sql.delete_category_rows u c db.
Proof.
  intros He Hb. unfold delete_category. now rewrite He, Hb.
Qed.

Lemma delete_category_rows_In (u c : string) (db : Db) (r : CategoryRow) :
  In r (categories (Sql.delete_category_rows u c db))
  <-> In r (categories db) /\ r <> mkCategory u c.
Proof.
  simpl. rewrite filter_In, negb_true_iff.
  rewrite <- (category_key_spec u c r).
  destruct (Sql.category_key u c r); intuition congruence.
Qed.

(** C6: delete_category counts the expenses and the budgets of the owner
    that name the category before it decides.  With at least one of either
    the whole database is returned as it was.  With none of both, exactly the
    row [(owner, name)] leaves the categories table: every other category
    row stays, and the users, expenses and budget tables are untouched. *)
Theorem delete_category_guard (u c : string) (db : Db) :
  ((0 < Sql.count_expenses u c db \/ 0 < Sql.count_budget u c db)%nat ->
   delete_category u c db = db)
  /\ (Sql.count_expenses u c db = O /\ Sql.count_budget u c db = O ->
      let db' := delete_category u c db in
      ~ In (mkCategory u c) (categories db')
      /\ (forall r, r <> mkCategory u c ->
                    (In r (categories db') <-> In r (categories db)))
      /\ users db' = users db
      /\ expenses db' = expenses db
      /\ expenses_seq db' = expenses_seq db
      /\ budget db' = budget db)
  /\ (In (mkCategory u c) (categories db) ->
      ~ In (mkCategory u c) (categories (delete_category u c db)) ->
      Sql.count_expenses u c db = O /\ Sql.count_budget u c db = O).
Proof.
  split; [apply delete_category_blocked|]. split.
  - intros [He Hb]. cbv zeta. rewrite (delete_category_free u c db He Hb).
    split; [|split; [|repeat split]].
    + rewrite delete_category_rows_In. tauto.
    + intros r Hr. rewrite delete_category_rows_In. tauto.
  - intros Hin Hgone.
    destruct (Sql.count_expenses u c db) eqn:He;
      destruct (Sql.count_budget u c db) eqn:Hb; [tauto| | |];
      exfalso; apply Hgone;
      rewrite delete_category_blocked; auto; rewrite ?He, ?Hb; lia.
Qed.

Section StoreInvariant.

Variable hash : string -> string.

Lemma insert_category_NoDup (u c : string) (db db' : Db) :
  Sql.insert_category u c db = Done db' ->
  NoDup (categories db) -> NoDup (categories db').
Proof.
  unfold Sql.insert_category.
  destruct (existsb (Sql.category_key u c) (categories db)) eqn:Hex;
    [discriminate|].
  intros [= <-] Hnd. simpl. apply NoDup_snoc; [exact Hnd|].
  intros Hin. apply existsb_category_key in Hin. congruence.
Qed.

Lemma insert_or_ignore_category_NoDup (u c : string) (db : Db) :
  NoDup (categories db) ->
  NoDup (categories (Sql.insert_or_ignore_category u c db)).
Proof.
  intros Hnd. unfold Sql.insert_or_ignore_category.
  destruct (Sql.insert_category u c db) as [db'|] eqn:Hins; [|exact Hnd].
  exact (insert_category_NoDup u c db db' Hins Hnd).
Qed.

Lemma seed_categories_NoDup (u : string) (cats : list string) (db : Db) :
  NoDup (categories db) ->
  NoDup (categories
           (fold_left (fun acc cat => Sql.insert_or_ignore_category u cat acc)
                      cats db)).
Proof.
  revert db. induction cats as [|c cats IH]; intros db Hnd; simpl;
    [exact Hnd|].
  apply IH. now apply insert_or_ignore_category_NoDup.
Qed.

Lemma exec_categories_NoDup (op : Op) (db : Db) :
  NoDup (categories db) -> NoDup (categories (exec hash op db)).
Proof.
  intros Hnd. destruct op as [u p|u c|u c|u d c a descr|i|u c l]; cbn [exec].
  - unfold signup_user, Sql.insert_user.
    destruct (existsb (Sql.user_key u) (users db)); cbn [snd]; [exact Hnd|].
    now apply seed_categories_NoDup.
  - unfold add_category. destruct (negb (PyStr.truthy c)); [exact Hnd|].
    destruct (Sql.insert_category u (PyStr.strip c) db) as [db'|] eqn:Hins;
      cbn [snd]; [|exact Hnd].
    exact (insert_category_NoDup _ _ _ _ Hins Hnd).
  - unfold delete_category.
    destruct ((_ =? _)%nat && (_ =? _)%nat); [|exact Hnd].
    simpl. now apply NoDup_filter.
  - exact Hnd.
  - exact Hnd.
  - exact Hnd.
Qed.

Lemma reachable_categories_NoDup (db : Db) :
  reachable hash db -> NoDup (categories db).
Proof.
  induction 1 as [|db op _ IH]; [constructor|].
  now apply exec_categories_NoDup.
Qed.

(** C9: the pair (owner, name) is a key of the categories table.  Every
    operation that writes to the store (signup, add_category,
    delete_category, add_expense, delete_expense, set_budget) takes a table
    without a repeated (owner, name) row to one without, so no state reached
    from the empty database holds two category rows with the same owner and
    the same name, at whatever positions. *)
Theorem category_key_unique :
  (forall op db, NoDup (categories db) ->
                 NoDup (categories (exec hash op db)))
  /\ (forall db, reachable hash db ->
        forall i j r1 r2,
          nth_error (categories db) i = Some r1 ->
          nth_error (categories db) j = Some r2 ->
          c_username r1 = c_username r2 ->
          c_category r1 = c_category r2 ->
          i = j).
Proof.
  split; [exact exec_categories_NoDup|].
  intros db Hreach i j r1 r2 Hi Hj Hu Hc.
  pose proof (reachable_categories_NoDup db Hreach) as Hnd.
  rewrite NoDup_nth_error in Hnd. apply Hnd.
  - apply nth_error_Some. congruence.
  - rewrite Hi, Hj. destruct r1, r2; simpl in *; congruence.
Qed.

End StoreInvariant.

Lemma lstrip_all_space (s : string) :
  PyStr.all_space s = true -> PyStr.lstrip s = EmptyString.
Proof.
  induction s as [|c s IH]; simpl; [reflexivity|].
  destruct (PyStr.is_space c); simpl; [exact IH|discriminate].
Qed.

Lemma strip_all_space (s : string) :
  PyStr.all_space s = true -> PyStr.strip s = EmptyString.
Proof.
  intros Hs. unfold PyStr.strip. now rewrite (lstrip_all_space s Hs).
Qed.

Lemma add_category_empty_name (u : string) (db : Db) :
  add_category u EmptyString db = (false, db).
Proof. reflexivity. Qed.

Lemma add_category_existing (u c : string) (db : Db) :
  In (mkCategory u (PyStr.strip c)) (categories db) ->
  add_category u c db = (false, db).
Proof.
  intros Hin. apply existsb_category_key in Hin.
  unfold add_category, Sql.insert_category. rewrite Hin.
  now destruct (negb (PyStr.truthy c)).
Qed.

Lemma add_category_inserts_stripped (u c : string) (db : Db) :
  c <> EmptyString ->
  ~ In (mkCategory u (PyStr.strip c)) (categories db) ->
  add_category u c db
  = (true, mkDb (users db) (categories db ++ [mkCategory u (PyStr.strip c)])
                (expenses db) (expenses_seq db) (budget db)).
Proof.
  intros Hc Hnew. unfold add_category, Sql.insert_category.
  destruct c as [|a c]; [congruence|]. simpl negb. cbv iota.
  destruct (existsb _ _) eqn:Hex; [|reflexivity].
  apply existsb_category_key in Hex. contradiction.
Qed.

(** A name made of whitespace only passes the emptiness test, is stripped to
    the empty name and is stored. *)
Lemma add_category_blank_inserts_empty (u c : string) (db : Db) :
  c <> EmptyString -> PyStr.all_space c = true ->
  ~ In (mkCategory u EmptyString) (categories db) ->
  fst (add_category u c db) = true
  /\ In (mkCategory u EmptyString) (categories (snd (add_category u c db))).
Proof.
  intros Hc Hsp Hnew. pose proof (strip_all_space c Hsp) as Hstrip.
  rewrite (add_category_inserts_stripped u c db Hc); rewrite Hstrip; auto.
  split; [reflexivity|]. simpl. apply in_or_app. right. now left.
Qed.

(** C3: on the database of a freshly signed-up user, add_category with a name
    of three spaces does not return false: it returns true and stores the
    empty category name for that user. *)
Theorem add_category_blank_name_accepted :
  PyStr.all_space "   " = true
  /\ fst (add_category "alice" "   " db_alice) = true
  /\ categories (snd (add_category "alice" "   " db_alice))
     = (categories db_alice ++ [mkCategory "alice" ""])%list.
Proof. repeat split. Qed.

(** ** Expenses *)

Lemma max_id_ge (rows : list ExpenseRow) (r : ExpenseRow) :
  In r rows -> e_id r <= Sql.max_id rows.
Proof.
  induction rows as [|x rows IH]; simpl; [tauto|].
  intros [->|Hin]; [lia|]. specialize (IH Hin). lia.
Qed.

Lemma next_expense_id_fresh (db : Db) (r : ExpenseRow) :
  In r (expenses db) -> e_id r < Sql.next_expense_id db.
Proof.
  intros Hin. apply max_id_ge in Hin. unfold Sql.next_expense_id. lia.
Qed.

Lemma get_expenses_add_expense
      (u d c : string) (a : Q) (descr : string) (db : Db) :
  get_expenses u (add_expense u d c a descr db)
  = (get_expenses u db
     ++ [mkDfRow (Sql.next_expense_id db) d c a (PyStr.strip descr)])%list.
Proof.
  unfold get_expenses, add_expense, Sql.insert_expense. simpl expenses.
  rewrite filter_app, map_app. simpl. now rewrite String.eqb_refl.
Qed.

Lemma get_expenses_ids (u : string) (db : Db) (r : DfRow string) :
  In r (get_expenses u db) -> exists e, In e (expenses db) /\ e_id e = df_id r.
Proof.
  unfold get_expenses. rewrite in_map_iff. intros [e [<- He]].
  apply filter_In in He. exists e. split; [tauto|reflexivity].
Qed.

(** The specification's wording fails on the amount: add_expense stores a
    negative amount as it is given. *)
Lemma add_expense_negative_amount_stored :
  ~ Spec.addExpense_stores_checked_row
      "alice" "2024-03-15" "Food" (-5 # 1) "taxi" db_alice.
Proof.
  intros [row [Hrows [Hpos _]]]. simpl in Hrows.
  injection Hrows as <-. simpl in Hpos. discriminate Hpos.
Qed.

(** It fails on the date as well: the text that is passed is stored, whatever
    its shape. *)
Lemma add_expense_date_stored_verbatim :
  ~ Spec.addExpense_stores_checked_row
      "alice" "15/03/2024" "Food" (5 # 1) "taxi" db_alice.
Proof.
  intros [row [Hrows [_ [_ [Hiso _]]]]]. simpl in Hrows.
  injection Hrows as <-. simpl in Hiso. discriminate Hiso.
Qed.

(** C4 (amended): add_expense appends exactly one row; the row carries the
    owner, the date text, the category and the amount as they were passed,
    the description with surrounding whitespace stripped (what is cut off at
    either end is whitespace, what is left has none at its ends), and an id
    greater than the id of every expense already stored.  When the caller
    passes a positive amount and a date text of the shape YYYY-MM-DD, as the
    entry form does, the stored row is as the specification words it. *)
Theorem add_expense_stores_row
        (u d c : string) (a : Q) (descr : string) (db : Db) :
  (exists row : ExpenseRow,
      expenses (add_expense u d c a descr db) = (expenses db ++ [row])%list
      /\ e_username row = u /\ e_date row = d /\ e_category row = c
      /\ e_amount row = a
      /\ e_description row = PyStr.strip descr
      /\ (forall r, In r (expenses db) -> e_id r < e_id row)
      /\ expenses_seq (add_expense u d c a descr db) = e_id row)
  /\ (exists pre post,
         descr = (pre ++ PyStr.strip descr ++ post)%string
         /\ PyStr.all_space pre = true /\ PyStr.all_space post = true
         /\ PyStr.trimmed (PyStr.strip descr) = true)
  /\ (exists listed : DfRow string,
         get_expenses u (add_expense u d c a descr db)
         = (get_expenses u db ++ [listed])%list
         /\ df_date listed = d /\ df_category listed = c
         /\ df_amount listed = a
         /\ df_description listed = PyStr.strip descr
         /\ forall r, In r (get_expenses u db) -> df_id r < df_id listed)
  /\ ((0 < a)%Q -> is_iso_date d = true ->
      Spec.addExpense_stores_checked_row u d c a descr db).
Proof.
  split; [|split; [apply strip_spec|split]].
  - eexists. split; [reflexivity|]. simpl. repeat split.
    intros r Hin. now apply next_expense_id_fresh.
  - eexists. split; [apply get_expenses_add_expense|]. simpl.
    repeat split. intros r Hin.
    destruct (get_expenses_ids u db r Hin) as [e [He <-]].
    now apply next_expense_id_fresh.
  - intros Hpos Hiso. eexists. split; [reflexivity|]. simpl.
    repeat split; auto.
    intros r Hin Heq. apply next_expense_id_fresh in Hin. lia.
Qed.

(** ** Group-by sums *)




Section GroupByFacts.

Context {K R : Type} (keqb kltb : K -> K -> bool) `{!KeyOrder keqb kltb}.
Variables (key : R -> K) (val : R -> Q).











End GroupByFacts.

#[export] Instance date_KeyOrder : KeyOrder date_eqb date_ltb.
Proof.
  split.
  - intros [y1 m1 d1] [y2 m2 d2]. unfold date_eqb. simpl.
    rewrite !andb_true_iff, !Z.eqb_eq.
    split; [intros [[-> ->] ->]; reflexivity|intros [= -> -> ->]; auto].
  - intros [y m d]. unfold date_ltb. simpl.
    rewrite !Z.ltb_irrefl, !Z.eqb_refl. reflexivity.
  - intros [y1 m1 d1] [y2 m2 d2] [y3 m3 d3]. unfold date_ltb. simpl.
    rewrite !orb_true_iff, !andb_true_iff, !orb_true_iff, !andb_true_iff,
      !Z.ltb_lt, !Z.eqb_eq. lia.
  - intros [y1 m1 d1] [y2 m2 d2]. unfold date_eqb, date_ltb. simpl.
    rewrite !andb_false_iff, !orb_false_iff, !andb_false_iff, !orb_false_iff,
      !andb_false_iff, !orb_true_iff, !andb_true_iff, !orb_true_iff,
      !andb_true_iff, !Z.ltb_lt, !Z.ltb_ge, !Z.eqb_eq, !Z.eqb_neq. lia.
Qed.

#[export] Instance string_KeyOrder : KeyOrder String.eqb String.ltb.
Proof.
  split.
  - exact String.eqb_eq.
  - intros a. unfold String.ltb.
    replace (String.compare a a) with Eq; [reflexivity|].
    symmetry. now apply String_as_OT.cmp_eq.
  - intros a b c. unfold String.ltb.
    destruct (String.compare a b) eqn:Hab; try discriminate.
    destruct (String.compare b c) eqn:Hbc; try discriminate.
    intros _ _. apply String_as_OT.cmp_lt in Hab, Hbc.
    pose proof (String_as_OT.lt_trans _ _ _ Hab Hbc) as Hac.
    apply String_as_OT.cmp_lt in Hac. unfold String_as_OT.cmp in Hac.
    now rewrite Hac.
  - intros a b Hne. apply String.eqb_neq in Hne. unfold String.ltb.
    rewrite (String.compare_antisym b a).
    destruct (String.compare a b) eqn:Hab; simpl; try reflexivity.
    + apply String.compare_eq_iff in Hab. contradiction.
    + discriminate.
Qed.

(** ** Month filter and daily average *)

Lemma month_filter_In (df : list (DfRow Timestamp)) (dt : Timestamp)
      (r : DfRow Timestamp) :
  In r (month_filter df dt)
  <-> In r df
      /\ year (ts_date (df_date r)) = year (ts_date dt)
      /\ month (ts_date (df_date r)) = month (ts_date dt).
Proof.
  unfold month_filter. destruct df as [|r0 df]; [simpl; tauto|].
  rewrite filter_In. unfold month_key_eqb, current_month_key. simpl fst.
  simpl snd. rewrite andb_true_iff, !Z.eqb_eq. tauto.
Qed.



(** ** Budget overview *)

Local Open Scope Q_scope.

Lemma Qle_bool_gt (a b : Q) : Qle_bool a b = false <-> b < a.
Proof.
  split.
  - intros H. apply Qnot_le_lt. intros Hle.
    apply Qle_bool_iff in Hle. congruence.
  - intros H. destruct (Qle_bool a b) eqn:Hle; [|reflexivity].
    apply Qle_bool_iff in Hle. exfalso. exact (Qlt_not_le _ _ H Hle).
Qed.

(** ** Export *)

Local Close Scope Q_scope.
Local Open Scope nat_scope.

Lemma count_char_app (c : ascii) (s t : string) :
  Csv.count_char c (s ++ t) = Csv.count_char c s + Csv.count_char c t.
Proof.
  induction s as [|d s IH]; simpl; [reflexivity|]. rewrite IH. lia.
Qed.

Lemma double_quotes_line_feeds (s : string) :
  Csv.count_char Csv.LF (Csv.double_quotes s) = Csv.count_char Csv.LF s.
Proof.
  induction s as [|d s IH]; simpl; [reflexivity|].
  destruct (Ascii.eqb d Csv.QUOTE) eqn:Hq.
  - apply Ascii.eqb_eq in Hq. subst d. simpl. exact IH.
  - simpl. now rewrite IH.
Qed.

(** Quoting a field adds no line feed to it. *)
Lemma field_line_feeds (s : string) :
  Csv.count_char Csv.LF (Csv.field s) = Csv.count_char Csv.LF s.
Proof.
  unfold Csv.field. destruct (Csv.needs_quoting s); [|reflexivity].
  simpl. rewrite count_char_app, double_quotes_line_feeds. simpl. lia.
Qed.

Lemma string_of_uint_line_feeds (d : Decimal.uint) :
  Csv.count_char Csv.LF (NilEmpty.string_of_uint d) = 0.
Proof. induction d; simpl; auto. Qed.

Lemma repr_int_line_feeds (z : Z) : Csv.count_char Csv.LF (Csv.repr_int z) = 0.
Proof.
  unfold Csv.repr_int, NilZero.string_of_int, NilZero.string_of_uint.
  destruct (Z.to_int z) as [d|d]; destruct d; simpl;
    auto using string_of_uint_line_feeds.
Qed.

Section ExportFacts.

Variable repr_float : Q -> string.

Lemma record_line_feeds (r : DfRow string) :
  Csv.line_count (Csv.record repr_float r)
  = 1 + Csv.embedded_line_feeds repr_float r.
Proof.
  unfold Csv.line_count, Csv.record, Csv.embedded_line_feeds.
  repeat (rewrite count_char_app; cbn [Csv.count_char]).
  rewrite !field_line_feeds, repr_int_line_feeds. simpl. lia.
Qed.

Lemma records_line_feeds (df : list (DfRow string)) :
  Csv.line_count (String.concat EmptyString (map (Csv.record repr_float) df))
  = List.length df + list_sum (map (Csv.embedded_line_feeds repr_float) df).
Proof.
  induction df as [|r df IH]; [reflexivity|].
  assert (Hcons : forall (s : string) l,
             Csv.line_count (String.concat EmptyString (s :: l))
             = Csv.line_count s
               + Csv.line_count (String.concat EmptyString l)).
  { intros s [|t l]; simpl.
    - unfold Csv.line_count. simpl. lia.
    - unfold Csv.line_count. now rewrite !count_char_app. }
  cbn [map]. rewrite Hcons, IH, record_line_feeds. simpl. lia.
Qed.

Lemma to_csv_line_count (df : list (DfRow string)) :
  Csv.line_count (Csv.to_csv repr_float df)
  = S (List.length df)
    + list_sum (map (Csv.embedded_line_feeds repr_float) df).
Proof.
  unfold Csv.to_csv. unfold Csv.line_count at 1. rewrite count_char_app.
  fold (Csv.line_count
          (String.concat EmptyString (map (Csv.record repr_float) df))).
  rewrite records_line_feeds. reflexivity.
Qed.

Lemma no_embedded_line_feeds (df : list (DfRow string)) :
  (forall r, In r df -> Csv.embedded_line_feeds repr_float r = 0) ->
  list_sum (map (Csv.embedded_line_feeds repr_float) df) = 0.
Proof.
  induction df as [|r df IH]; simpl; intros Hall; [reflexivity|].
  rewrite (Hall r) by now left. apply IH. intros r' Hr'. apply Hall. now right.
Qed.

End ExportFacts.

(** The specification's wording fails for no expenses: the export tab
    produces no text then, not a header line. *)
Lemma export_nothing_for_no_expenses :
  ~ Spec.export_has_header_and_rows repr_whole_float
      (get_expenses "alice" db_alice).
Proof. intros [out [Hout _]]. discriminate Hout. Qed.

(** A description that holds a line feed is written as it is, inside
    quotes: the record takes two lines of the text. *)
Lemma export_embedded_line_feed :
  Csv.line_count
    (Csv.to_csv repr_whole_float
       [mkDfRow 1 "2024-03-15" "Food" 12%Q
                ("lunch" ++ String Csv.LF "with tip")]) = 3.
Proof. reflexivity. Qed.

Lemma export_two_expenses :
  option_map Csv.line_count
    (Csv.export_csv repr_whole_float (get_expenses "alice" db_two_expenses))
  = Some 3.
Proof. reflexivity. Qed.

(** C5 (amended): for an owner without expenses the export tab produces no
    text at all.  For N >= 1 expenses it produces the header row followed by
    one record per expense; the text has N + 1 lines plus the line feeds that
    the fields themselves hold, hence exactly N + 1 lines when no date,
    category, printed amount or description holds a line feed. *)
Theorem export_line_count (repr_float : Q -> string) :
  Csv.export_csv repr_float [] = None
  /\ forall df : list (DfRow string),
      df <> [] ->
      Csv.export_csv repr_float df = Some (Csv.to_csv repr_float df)
      /\ Csv.to_csv repr_float df
         = (Csv.header
            ++ String.concat EmptyString (map (Csv.record repr_float) df))%string
      /\ Csv.line_count (Csv.to_csv repr_float df)
         = S (List.length df)
           + list_sum (map (Csv.embedded_line_feeds repr_float) df)
      /\ ((forall r, In r df -> Csv.embedded_line_feeds repr_float r = 0) ->
          Spec.export_has_header_and_rows repr_float df).
Proof.
  split; [reflexivity|]. intros df Hdf.
  assert (Hexp : Csv.export_csv repr_float df
                 = Some (Csv.to_csv repr_float df))
    by (destruct df; [contradiction|reflexivity]).
  split; [exact Hexp|]. split; [reflexivity|].
  split; [apply to_csv_line_count|].
  intros Hclean. exists (Csv.to_csv repr_float df). split; [exact Hexp|].
  rewrite to_csv_line_count, (no_embedded_line_feeds _ _ Hclean). lia.
Qed.

(** * Further properties of the store *)

Local Close Scope nat_scope.
Local Open Scope Z_scope.

(** ** Keys of the users, budget and expenses tables *)

(** Dropping rows keeps the keys of a table distinct. *)
Lemma filter_keeps_keys_distinct {Row Key : Type} (key : Row -> Key)
      (keep : Row -> bool) (rows : list Row) :
  NoDup (map key rows) -> NoDup (map key (filter keep rows)).
Proof.
  induction rows as [|r rows IH]; simpl; intros Hnd; [constructor|].
  apply NoDup_cons_iff in Hnd. destruct Hnd as [Hr Hnd].
  destruct (keep r); simpl; [|now apply IH].
  constructor; [|now apply IH].
  intros Hin. apply Hr. apply in_map_iff in Hin.
  destruct Hin as [r' [Hkey Hin]]. apply filter_In in Hin.
  apply in_map_iff. exists r'. tauto.
Qed.

Lemma existsb_user_key (u : string) (l : list UserRow) :
  existsb (Sql.user_key u) l = true <-> In u (map u_username l).
Proof.
  rewrite existsb_exists, in_map_iff. unfold Sql.user_key.
  split; intros [r [H1 H2]]; exists r.
  - apply String.eqb_eq in H2. tauto.
  - subst u. split; [exact H2|apply String.eqb_refl].
Qed.

Lemma seed_categories_frame (u : string) (cats : list string) (db : Db) :
  let db' := fold_left (fun acc cat => Sql.insert_or_ignore_category u cat acc)
                       cats db in
  users db' = users db /\ expenses db' = expenses db
  /\ expenses_seq db' = expenses_seq db /\ budget db' = budget db.
Proof.
  cbv zeta. revert db. induction cats as [|c cats IH]; intros db; simpl;
    [tauto|].
  destruct (IH (Sql.insert_or_ignore_category u c db)) as [-> [-> [-> ->]]].
  unfold Sql.insert_or_ignore_category, Sql.insert_category.
  destruct (existsb _ _); simpl; tauto.
Qed.

Section TableKeys.

Variable hash : string -> string.

Lemma reachable_invariant (P : Db -> Prop) :
  P empty_db ->
  (forall op db, P db -> P (exec hash op db)) ->
  forall db, reachable hash db -> P db.
Proof. intros H0 Hstep db. induction 1; auto. Qed.

(** What each operation does to the users table: nothing, or one more row
    under a username that was not there. *)
Lemma exec_users (op : Op) (db : Db) :
  users (exec hash op db) = users db
  \/ exists u h, ~ In u (map u_username (users db))
                 /\ users (exec hash op db) = (users db ++ [mkUser u h])%list.
Proof.
  destruct op as [u p|u c|u c|u d c a descr|i|u c l]; cbn [exec].
  - unfold signup_user, Sql.insert_user.
    destruct (existsb (Sql.user_key u) (users db)) eqn:Hex; cbn [snd];
      [now left|].
    right. exists u, (hash p). split.
    + intros Hin. apply existsb_user_key in Hin. congruence.
    + now destruct (seed_categories_frame u DEFAULT_CATEGORIES
                      (mkDb (users db ++ [mkUser u (hash p)]) (categories db)
                            (expenses db) (expenses_seq db) (budget db)))
        as [-> _].
  - left. unfold add_category, Sql.insert_category.
    destruct (negb _); [reflexivity|]. now destruct (existsb _ _).
  - left. unfold delete_category. now destruct (_ && _).
  - now left.
  - now left.
  - now left.
Qed.

Lemma exec_users_NoDup (op : Op) (db : Db) :
  NoDup (map u_username (users db)) ->
  NoDup (map u_username (users (exec hash op db))).
Proof.
  intros Hnd. destruct (exec_users op db) as [->|[u [h [Hnew ->]]]];
    [exact Hnd|].
  rewrite map_app. simpl. now apply NoDup_snoc.
Qed.

(** X1: the username is a key of the users table.  Every operation takes a
    table without a repeated username to one without, so no state reached
    from the empty database holds two user rows with the same username. *)
Theorem users_key_unique :
  (forall op db, NoDup (map u_username (users db)) ->
                 NoDup (map u_username (users (exec hash op db))))
  /\ (forall db, reachable hash db ->
        forall i j r1 r2,
          nth_error (users db) i = Some r1 ->
          nth_error (users db) j = Some r2 ->
          u_username r1 = u_username r2 -> i = j).
Proof.
  split; [exact exec_users_NoDup|].
  intros db Hreach i j r1 r2 Hi Hj Hu.
  assert (Hnd : NoDup (map u_username (users db))).
  { apply (reachable_invariant
             (fun d => NoDup (map u_username (users d))));
      [constructor|exact exec_users_NoDup|exact Hreach]. }
  rewrite NoDup_nth_error in Hnd. apply Hnd.
  - rewrite length_map. apply nth_error_Some. congruence.
  - rewrite !nth_error_map, Hi, Hj. simpl. now rewrite Hu.
Qed.

Lemma budget_key_pk (u c : string) (r : BudgetRow) :
  Sql.budget_key u c r = true <-> budget_pk r = (u, c).
Proof.
  unfold Sql.budget_key, budget_pk.
  rewrite andb_true_iff, !String.eqb_eq.
  split; [intros [-> ->]; reflexivity|intros [= -> ->]; auto].
Qed.

Lemma insert_or_replace_budget_NoDup (u c : string) (l : Q) (db : Db) :
  NoDup (map budget_pk (budget db)) ->
  NoDup (map budget_pk (budget (Sql.insert_or_replace_budget u c l db))).
Proof.
  intros Hnd. simpl. rewrite map_app. simpl. apply NoDup_snoc.
  - now apply filter_keeps_keys_distinct.
  - intros Hin. apply in_map_iff in Hin. destruct Hin as [r [Hr Hin]].
    apply filter_In in Hin. destruct Hin as [_ Hk].
    assert (Hkey : Sql.budget_key u c r = true)
      by (apply budget_key_pk; exact Hr).
    rewrite Hkey in Hk. discriminate.
Qed.

Lemma exec_budget_NoDup (op : Op) (db : Db) :
  NoDup (map budget_pk (budget db)) ->
  NoDup (map budget_pk (budget (exec hash op db))).
Proof.
  intros Hnd. destruct op as [u p|u c|u c|u d c a descr|i|u c l]; cbn [exec].
  - unfold signup_user, Sql.insert_user.
    destruct (existsb (Sql.user_key u) (users db)); cbn [snd]; [exact Hnd|].
    now destruct (seed_categories_frame u DEFAULT_CATEGORIES
                    (mkDb (users db ++ [mkUser u (hash p)]) (categories db)
                          (expenses db) (expenses_seq db) (budget db)))
      as [_ [_ [_ ->]]].
  - unfold add_category, Sql.insert_category.
    destruct (negb _); [exact Hnd|]. now destruct (existsb _ _).
  - unfold delete_category. now destruct (_ && _).
  - exact Hnd.
  - exact Hnd.
  - now apply insert_or_replace_budget_NoDup.
Qed.

(** X2: the pair (owner, category) is a key of the budget table: set_budget
    replaces the row it conflicts with, no other operation writes to the
    table, and no state reached from the empty database holds two budget
    rows for the same owner and category. *)
Theorem budget_key_unique :
  (forall op db, NoDup (map budget_pk (budget db)) ->
                 NoDup (map budget_pk (budget (exec hash op db))))
  /\ (forall db, reachable hash db ->
        forall i j r1 r2,
          nth_error (budget db) i = Some r1 ->
          nth_error (budget db) j = Some r2 ->
          b_username r1 = b_username r2 ->
          b_category r1 = b_category r2 -> i = j).
Proof.
  split; [exact exec_budget_NoDup|].
  intros db Hreach i j r1 r2 Hi Hj Hu Hc.
  assert (Hnd : NoDup (map budget_pk (budget db))).
  { apply (reachable_invariant
             (fun d => NoDup (map budget_pk (budget d))));
      [constructor|exact exec_budget_NoDup|exact Hreach]. }
  rewrite NoDup_nth_error in Hnd. apply Hnd.
  - rewrite length_map. apply nth_error_Some. congruence.
  - rewrite !nth_error_map, Hi, Hj. unfold budget_pk. simpl.
    now rewrite Hu, Hc.
Qed.

End TableKeys.

(** ** Expense ids *)

Lemma max_id_nonneg (rows : list ExpenseRow) : 0 <= Sql.max_id rows.
Proof. induction rows as [|r rows IH]; simpl; lia. Qed.

Lemma insert_expense_ids (u d c : string) (a : Q) (descr : string) (db : Db) :
  ids_in_sequence db ->
  ids_in_sequence (Sql.insert_expense u d c a descr db).
Proof.
  intros [Hnd Hall]. unfold ids_in_sequence. simpl. split.
  - rewrite map_app. simpl. apply NoDup_snoc; [exact Hnd|].
    intros Hin. apply in_map_iff in Hin. destruct Hin as [r [Hr Hin]].
    apply next_expense_id_fresh in Hin. lia.
  - apply Forall_app. split.
    + eapply Forall_impl; [|exact Hall]. simpl. intros r Hr.
      unfold Sql.next_expense_id. lia.
    + constructor; [|constructor]. simpl. unfold Sql.next_expense_id.
      pose proof (max_id_nonneg (expenses db)). lia.
Qed.

Lemma delete_expense_rows_ids (i : Z) (db : Db) :
  ids_in_sequence db -> ids_in_sequence (Sql.delete_expense_rows i db).
Proof.
  intros [Hnd Hall]. unfold ids_in_sequence. simpl. split.
  - now apply filter_keeps_keys_distinct.
  - rewrite Forall_forall in *. intros r Hr. apply filter_In in Hr.
    now apply Hall.
Qed.

Section ExpenseIds.

Variable hash : string -> string.

Lemma exec_ids_in_sequence (op : Op) (db : Db) :
  ids_in_sequence db -> ids_in_sequence (exec hash op db).
Proof.
  intros Hinv. destruct op as [u p|u c|u c|u d c a descr|i|u c l]; cbn [exec].
  - unfold signup_user, Sql.insert_user.
    destruct (existsb (Sql.user_key u) (users db)); cbn [snd]; [exact Hinv|].
    unfold ids_in_sequence.
    now destruct (seed_categories_frame u DEFAULT_CATEGORIES
                    (mkDb (users db ++ [mkUser u (hash p)]) (categories db)
                          (expenses db) (expenses_seq db) (budget db)))
      as [_ [-> [-> _]]].
  - unfold add_category, Sql.insert_category.
    destruct (negb _); [exact Hinv|]. now destruct (existsb _ _).
  - unfold delete_category. now destruct (_ && _).
  - now apply insert_expense_ids.
  - now apply delete_expense_rows_ids.
  - exact Hinv.
Qed.

Lemma exec_expenses_seq (op : Op) (db : Db) :
  expenses_seq db <= expenses_seq (exec hash op db).
Proof.
  destruct op as [u p|u c|u c|u d c a descr|i|u c l]; cbn [exec].
  - unfold signup_user, Sql.insert_user.
    destruct (existsb (Sql.user_key u) (users db)); cbn [snd]; [lia|].
    destruct (seed_categories_frame u DEFAULT_CATEGORIES
                (mkDb (users db ++ [mkUser u (hash p)]) (categories db)
                      (expenses db) (expenses_seq db) (budget db)))
      as [_ [_ [-> _]]]. simpl. lia.
  - unfold add_category, Sql.insert_category.
    destruct (negb _); cbn [snd]; [lia|].
    destruct (existsb _ _); simpl; lia.
  - unfold delete_category. destruct (_ && _); simpl; lia.
  - simpl. unfold Sql.next_expense_id. lia.
  - simpl. lia.
  - simpl. lia.
Qed.

(** X3: the id is a key of the expenses table and ids are never reused.  In
    every state reached from the empty database the stored ids are pairwise
    distinct, positive and at most the AUTOINCREMENT counter; no operation
    lowers the counter, also not a deletion; and add_expense assigns an id
    above the counter.  So the id of a deleted expense is not given to a
    later one. *)
Theorem expense_ids_never_reused :
  (forall db, reachable hash db -> ids_in_sequence db)
  /\ (forall op db, expenses_seq db <= expenses_seq (exec hash op db))
  /\ (forall u d c a descr db,
        expenses (add_expense u d c a descr db)
        = (expenses db
           ++ [mkExpense (Sql.next_expense_id db) u d c a
                         (PyStr.strip descr)])%list
        /\ expenses_seq db < Sql.next_expense_id db
        /\ expenses_seq (add_expense u d c a descr db)
           = Sql.next_expense_id db).
Proof.
  split; [|split].
  - apply reachable_invariant; [|exact exec_ids_in_sequence].
    split; constructor.
  - exact exec_expenses_seq.
  - intros u d c a descr db. unfold Sql.next_expense_id. simpl.
    repeat split. lia.
Qed.

End ExpenseIds.

Lemma add_then_delete_expense_rows
      (u d c : string) (a : Q) (descr : string) (db : Db) :
  expenses (delete_expense (Sql.next_expense_id db)
                           (add_expense u d c a descr db)) = expenses db
  /\ budget (delete_expense (Sql.next_expense_id db)
                            (add_expense u d c a descr db)) = budget db.
Proof.
  split; [|reflexivity]. unfold delete_expense, add_expense. simpl.
  rewrite filter_app. simpl. rewrite Z.eqb_refl. simpl. rewrite app_nil_r.
  apply forallb_filter_id. apply forallb_forall. intros r Hr.
  apply next_expense_id_fresh in Hr. apply negb_true_iff, Z.eqb_neq. lia.
Qed.

(** X4: an expense that is added and then deleted by the id it was given
    leaves the expenses table as it was before, whatever rows it held; the
    AUTOINCREMENT counter stays advanced, so the next expense gets a larger
    id than the deleted one. *)
Theorem add_then_delete_expense
        (u d c : string) (a : Q) (descr : string) (db : Db) :
  let db1 := add_expense u d c a descr db in
  let db2 := delete_expense (Sql.next_expense_id db) db1 in
  expenses db2 = expenses db
  /\ users db2 = users db /\ categories db2 = categories db
  /\ budget db2 = budget db
  /\ Sql.next_expense_id db < Sql.next_expense_id db2.
Proof.
  cbv zeta. unfold delete_expense, add_expense. simpl.
  assert (Hkeep : filter (fun r => negb (e_id r =? Sql.next_expense_id db))
                         (expenses db) = expenses db).
  { apply forallb_filter_id. apply forallb_forall. intros r Hr.
    apply next_expense_id_fresh in Hr. apply negb_true_iff, Z.eqb_neq. lia. }
  split.
  - rewrite filter_app, Hkeep. simpl. rewrite Z.eqb_refl. simpl.
    apply app_nil_r.
  - repeat split. unfold Sql.next_expense_id at 2. simpl. lia.
Qed.

(** ** Accounts are never changed *)

Lemma find_app_found {A : Type} (f : A -> bool) (l l' : list A) (x : A) :
  find f l = Some x -> find f (l ++ l') = Some x.
Proof.
  induction l as [|y l IH]; simpl; [discriminate|].
  destruct (f y); auto.
Qed.

Section AccountFacts.

Variable hash : string -> string.

Lemma exec_select_password (op : Op) (db : Db) (u : string) :
  user_exists u db = true ->
  Sql.select_password u (exec hash op db) = Sql.select_password u db.
Proof.
  intros Hex. unfold Sql.select_password.
  destruct (exec_users hash op db) as [->|[u' [h [_ ->]]]]; [reflexivity|].
  unfold user_exists in Hex.
  destruct (find (Sql.user_key u) (users db)) as [row|] eqn:Hf;
    [|discriminate].
  now rewrite (find_app_found _ _ _ _ Hf).
Qed.

(** X5: no operation changes or removes the account of an existing user.
    For a username that has a users row, the stored password hash is the
    same after any operation (a signup under any username included), the
    user still exists, and login gives the same answer for every password. *)
Theorem existing_account_unchanged (op : Op) (db : Db) (u : string) :
  user_exists u db = true ->
  Sql.select_password u (exec hash op db) = Sql.select_password u db
  /\ user_exists u (exec hash op db) = true
  /\ forall p, login_user hash u p (exec hash op db) = login_user hash u p db.
Proof.
  intros Hex. pose proof (exec_select_password op db u Hex) as Hsel.
  split; [exact Hsel|]. split.
  - unfold Sql.select_password in Hsel. unfold user_exists in *.
    destruct (find (Sql.user_key u) (users db)); [|discriminate].
    now destruct (find (Sql.user_key u) (users (exec hash op db))).
  - intros p. unfold login_user. now rewrite Hsel.
Qed.

End AccountFacts.

Lemma existing_account_unchanged_witness :
  Sql.select_password "alice" (exec toy_hash (OpSignup "alice" "other") db_alice)
  = Sql.select_password "alice" db_alice
  /\ user_exists "alice" (exec toy_hash (OpSignup "alice" "other") db_alice)
     = true
  /\ forall p,
      login_user toy_hash "alice" p
                 (exec toy_hash (OpSignup "alice" "other") db_alice)
      = login_user toy_hash "alice" p db_alice.
Proof.
  apply (existing_account_unchanged toy_hash (OpSignup "alice" "other")
                                    db_alice "alice").
  reflexivity.
Defined.

(** ** Budgets *)

Lemma filter_filter_same {A : Type} (f : A -> bool) (l : list A) :
  filter f (filter f l) = filter f l.
Proof.
  induction l as [|x l IH]; simpl; [reflexivity|].
  destruct (f x) eqn:Hx; simpl; [rewrite Hx|]; congruence.
Qed.

Lemma budget_rows_set_budget_same (u c : string) (l : Q) (db : Db) :
  budget_rows u (set_budget u c l db)
  = (filter (fun r => negb (String.eqb (bd_category r) c)) (budget_rows u db)
     ++ [mkBudRow c l])%list.
Proof.
  unfold budget_rows, set_budget, Sql.insert_or_replace_budget. simpl budget.
  rewrite filter_app, map_app. simpl. rewrite String.eqb_refl. simpl.
  f_equal. unfold Sql.budget_key.
  induction (budget db) as [|r rows IH]; simpl; [reflexivity|].
  destruct (String.eqb (b_username r) u) eqn:Hu;
    destruct (String.eqb (b_category r) c) eqn:Hc; simpl;
    rewrite ?Hu; simpl; rewrite ?Hc; simpl; now rewrite ?IH.
Qed.

Lemma budget_rows_set_budget_other (u u' c : string) (l : Q) (db : Db) :
  u' <> u -> budget_rows u' (set_budget u c l db) = budget_rows u' db.
Proof.
  intros Hne. unfold budget_rows, set_budget, Sql.insert_or_replace_budget.
  simpl budget. rewrite filter_app, map_app. simpl.
  replace (String.eqb u u') with false
    by (symmetry; apply String.eqb_neq; congruence).
  simpl. rewrite app_nil_r. f_equal. unfold Sql.budget_key.
  induction (budget db) as [|r rows IH]; simpl; [reflexivity|].
  destruct (String.eqb (b_username r) u) eqn:Hu; simpl.
  - apply String.eqb_eq in Hu.
    assert (Hu' : String.eqb (b_username r) u' = false)
      by (apply String.eqb_neq; congruence).
    destruct (String.eqb (b_category r) c); simpl; rewrite ?Hu'; exact IH.
  - destruct (String.eqb (b_username r) u'); simpl; now rewrite IH.
Qed.

Lemma get_budget_set_budget_other (u u' c : string) (l : Q) (db : Db) :
  u' <> u -> get_budget u' (set_budget u c l db) = get_budget u' db.
Proof.
  intros Hne. unfold get_budget.
  now rewrite (budget_rows_set_budget_other u u' c l db Hne).
Qed.

Lemma insert_by_category_Permutation (r : BudRow) (l : list BudRow) :
  Permutation (r :: l) (insert_by_category r l).
Proof.
  induction l as [|x l IH]; simpl; [reflexivity|].
  destruct (String.leb (bd_category r) (bd_category x)); [reflexivity|].
  rewrite perm_swap. now constructor.
Qed.

Lemma by_category_Permutation (l : list BudRow) :
  Permutation l (by_category l).
Proof.
  induction l as [|r l IH]; simpl; [constructor|].
  rewrite <- insert_by_category_Permutation. now constructor.
Qed.

Lemma insert_by_category_Sorted (r : BudRow) (l : list BudRow) :
  Sorted category_le l -> Sorted category_le (insert_by_category r l).
Proof.
  induction l as [|x l IH]; simpl; intros Hs; [repeat constructor|].
  destruct (String.leb (bd_category r) (bd_category x)) eqn:Hle.
  - constructor; [exact Hs|]. now constructor.
  - apply Sorted_inv in Hs. destruct Hs as [Hs Hhd].
    constructor; [now apply IH|].
    assert (Hxr : category_le x r).
    { unfold category_le, String.leb in *.
      rewrite (String.compare_antisym (bd_category x) (bd_category r)).
      destruct (String.compare (bd_category r) (bd_category x));
        simpl; congruence. }
    destruct l as [|z l]; simpl; [now constructor|].
    apply HdRel_inv in Hhd.
    destruct (String.leb (bd_category r) (bd_category z)); now constructor.
Qed.

Lemma by_category_Sorted (l : list BudRow) : Sorted category_le (by_category l).
Proof.
  induction l as [|r l IH]; simpl; [constructor|].
  now apply insert_by_category_Sorted.
Qed.

Lemma get_budget_In (u : string) (db : Db) (r : BudRow) :
  In r (get_budget u db) <-> In r (budget_rows u db).
Proof.
  unfold get_budget. split; apply Permutation_in;
    [symmetry|]; apply by_category_Permutation.
Qed.

Lemma filter_Permutation {A : Type} (p : A -> bool) (l l' : list A) :
  Permutation l l' -> Permutation (filter p l) (filter p l').
Proof.
  induction 1 as [|x l l' _ IH|x y l|l l' l'' _ IH1 _ IH2]; simpl.
  - constructor.
  - destruct (p x); [now constructor|exact IH].
  - destruct (p x), (p y); try reflexivity. apply perm_swap.
  - now rewrite IH1.
Qed.

(** X6: set_budget is an upsert, as get_budget shows it.  Afterwards the
    owner's budget listing holds the new row and the old rows of all other
    categories, each as often as before, nothing else; it holds exactly one
    row for the category, with the new limit; it is listed by category; the
    listings of all other users are unchanged; and of two set_budget calls
    for the same owner and category only the second one is stored.  A budget
    for Transport set before one for Food is listed after it. *)
Theorem set_budget_upsert (u c : string) (l : Q) (db : Db) :
  (forall r, In r (get_budget u (set_budget u c l db))
             <-> r = mkBudRow c l
                 \/ (In r (get_budget u db) /\ bd_category r <> c))
  /\ Permutation
       (get_budget u (set_budget u c l db))
       (mkBudRow c l
        :: filter (fun r => negb (String.eqb (bd_category r) c))
                  (get_budget u db))
  /\ filter (fun r => String.eqb (bd_category r) c)
            (get_budget u (set_budget u c l db)) = [mkBudRow c l]
  /\ Sorted category_le (get_budget u (set_budget u c l db))
  /\ (forall u', u' <> u ->
                 get_budget u' (set_budget u c l db) = get_budget u' db)
  /\ (forall l0, set_budget u c l (set_budget u c l0 db) = set_budget u c l db)
  /\ users (set_budget u c l db) = users db
  /\ categories (set_budget u c l db) = categories db
  /\ expenses (set_budget u c l db) = expenses db
  /\ get_budget "alice"
       (set_budget "alice" "Food" 200
          (set_budget "alice" "Transport" 50 db_alice))
     = [mkBudRow "Food" 200; mkBudRow "Transport" 50].
Proof.
  split; [|split; [|split; [|split; [apply by_category_Sorted|]]]].
  - intros r. rewrite !get_budget_In, budget_rows_set_budget_same.
    rewrite in_app_iff, filter_In, negb_true_iff, String.eqb_neq. simpl.
    intuition congruence.
  - unfold get_budget. rewrite <- (by_category_Permutation (budget_rows u _)).
    rewrite budget_rows_set_budget_same.
    rewrite <- (filter_Permutation _ _ _ (by_category_Permutation _)).
    rewrite Permutation_app_comm. reflexivity.
  - apply Permutation_length_1_inv.
    unfold get_budget.
    rewrite <- (filter_Permutation _ _ _ (by_category_Permutation _)).
    rewrite budget_rows_set_budget_same, filter_app. simpl.
    rewrite String.eqb_refl.
    replace (filter _ (filter _ (budget_rows u db))) with (@nil BudRow);
      [reflexivity|].
    symmetry. induction (budget_rows u db) as [|r rows IH]; simpl;
      [reflexivity|].
    destruct (String.eqb (bd_category r) c) eqn:Hc; simpl; [exact IH|].
    now rewrite Hc.
  - split; [intros u' Hne; now apply get_budget_set_budget_other|].
    split; [|repeat split].
    intros l0. unfold set_budget, Sql.insert_or_replace_budget. simpl.
    f_equal. rewrite filter_app, filter_filter_same. simpl.
    unfold Sql.budget_key at 2. simpl. rewrite !String.eqb_refl. simpl.
    now rewrite app_nil_r.
Qed.

(** ** Deleting an expense *)

Lemma filter_comm {A : Type} (f g : A -> bool) (l : list A) :
  filter f (filter g l) = filter g (filter f l).
Proof.
  induction l as [|x l IH]; simpl; [reflexivity|].
  destruct (f x) eqn:Hf; destruct (g x) eqn:Hg; simpl;
    rewrite ?Hf, ?Hg, IH; reflexivity.
Qed.

Lemma map_filter_image {A B : Type} (f : A -> B) (p : B -> bool) (l : list A) :
  map f (filter (fun x => p (f x)) l) = filter p (map f l).
Proof.
  induction l as [|x l IH]; simpl; [reflexivity|].
  destruct (p (f x)); simpl; now rewrite IH.
Qed.

Lemma get_expenses_delete_expense (u : string) (i : Z) (db : Db) :
  get_expenses u (delete_expense i db)
  = filter (fun r => negb (df_id r =? i)) (get_expenses u db).
Proof.
  unfold get_expenses, delete_expense. simpl expenses. rewrite filter_comm.
  exact (map_filter_image
           (fun r => mkDfRow (e_id r) (e_date r) (e_category r) (e_amount r)
                             (e_description r))
           (fun r => negb (df_id r =? i)) _).
Qed.

(** X7: delete_expense removes the row with the given id for whichever
    owner holds it: the listing of every user afterwards is the old listing
    without that id.  Users, categories, budgets and the id counter are left
    alone, and deleting an id that no row carries changes nothing. *)
Theorem delete_expense_any_owner (i : Z) (db : Db) :
  (forall u, get_expenses u (delete_expense i db)
             = filter (fun r => negb (df_id r =? i)) (get_expenses u db))
  /\ (forall r, In r (expenses (delete_expense i db))
                <-> In r (expenses db) /\ e_id r <> i)
  /\ users (delete_expense i db) = users db
  /\ categories (delete_expense i db) = categories db
  /\ budget (delete_expense i db) = budget db
  /\ expenses_seq (delete_expense i db) = expenses_seq db
  /\ (~ In i (map e_id (expenses db)) -> delete_expense i db = db).
Proof.
  split; [|split; [|repeat split]].
  - intros u. apply get_expenses_delete_expense.
  - intros r. simpl. rewrite filter_In, negb_true_iff, Z.eqb_neq. tauto.
  - intros Hno. unfold delete_expense, Sql.delete_expense_rows.
    replace (filter _ (expenses db)) with (expenses db); [now destruct db|].
    symmetry. apply forallb_filter_id. apply forallb_forall. intros r Hr.
    apply negb_true_iff, Z.eqb_neq. intros Heq. apply Hno.
    rewrite <- Heq. now apply in_map.
Qed.

(** ** Categories, again *)

Lemma add_category_result (u c : string) (db : Db) :
  (fst (add_category u c db) = false /\ snd (add_category u c db) = db)
  \/ (fst (add_category u c db) = true
      /\ c <> EmptyString
      /\ ~ In (mkCategory u (PyStr.strip c)) (categories db)
      /\ snd (add_category u c db)
         = mkDb (users db)
                (categories db ++ [mkCategory u (PyStr.strip c)])
                (expenses db) (expenses_seq db) (budget db)).
Proof.
  unfold add_category, Sql.insert_category.
  destruct c as [|a c]; [left; split; reflexivity|]. simpl negb. cbv iota.
  destruct (existsb _ _) eqn:Hex; [left; split; reflexivity|].
  right. split; [reflexivity|]. split; [discriminate|].
  split; [|reflexivity].
  intros Hin. apply existsb_category_key in Hin. congruence.
Qed.

(** X8: add_category reports whether it stored something.  When it returns
    false the database is unchanged; when it returns true exactly one row was
    appended to the categories table, the owner with the stripped name, which
    was not there before, and nothing else changed.  A second call with the
    same owner and name always returns false. *)
Theorem add_category_outcome (u c : string) (db : Db) :
  (fst (add_category u c db) = false -> snd (add_category u c db) = db)
  /\ (fst (add_category u c db) = true ->
      c <> EmptyString
      /\ ~ In (mkCategory u (PyStr.strip c)) (categories db)
      /\ snd (add_category u c db)
         = mkDb (users db)
                (categories db ++ [mkCategory u (PyStr.strip c)])
                (expenses db) (expenses_seq db) (budget db))
  /\ fst (add_category u c (snd (add_category u c db))) = false.
Proof.
  destruct (add_category_result u c db) as [[Hf Hdb]|[Ht [Hc [Hnew Hdb]]]].
  - split; [auto|]. split; [congruence|]. now rewrite Hdb.
  - split; [congruence|]. split; [auto|]. rewrite Hdb.
    rewrite add_category_existing; [reflexivity|].
    simpl. apply in_or_app. right. now left.
Qed.

Lemma insert_sorted_In (s x : string) (l : list string) :
  In x (insert_sorted s l) <-> x = s \/ In x l.
Proof.
  induction l as [|y l IH]; simpl; [intuition|].
  destruct (String.leb s y); simpl; [intuition|]. rewrite IH. intuition.
Qed.

Lemma insert_sorted_Permutation (s : string) (l : list string) :
  Permutation (s :: l) (insert_sorted s l).
Proof.
  induction l as [|y l IH]; simpl; [reflexivity|].
  destruct (String.leb s y); [reflexivity|].
  rewrite perm_swap. now constructor.
Qed.

Lemma order_by_Permutation (l : list string) : Permutation l (order_by l).
Proof.
  induction l as [|s l IH]; simpl; [constructor|].
  rewrite <- insert_sorted_Permutation. now constructor.
Qed.

Lemma leb_total (a b : string) : String.leb a b = false -> String.leb b a = true.
Proof.
  unfold String.leb. rewrite (String.compare_antisym b a).
  destruct (String.compare a b); simpl; congruence.
Qed.

Lemma insert_sorted_Sorted (s : string) (l : list string) :
  Sorted string_le l -> Sorted string_le (insert_sorted s l).
Proof.
  induction l as [|y l IH]; simpl; intros Hs; [repeat constructor|].
  destruct (String.leb s y) eqn:Hle.
  - constructor; [exact Hs|]. now constructor.
  - apply Sorted_inv in Hs. destruct Hs as [Hs Hhd].
    constructor; [now apply IH|].
    destruct l as [|z l]; simpl.
    + constructor. now apply leb_total.
    + apply HdRel_inv in Hhd. destruct (String.leb s z).
      * constructor. now apply leb_total.
      * now constructor.
Qed.

Lemma order_by_Sorted (l : list string) : Sorted string_le (order_by l).
Proof.
  induction l as [|s l IH]; simpl; [constructor|].
  now apply insert_sorted_Sorted.
Qed.

Lemma get_categories_In (u c : string) (db : Db) :
  In c (get_categories u db) <-> In (mkCategory u c) (categories db).
Proof.
  unfold get_categories.
  rewrite <- (Permutation_in' (eq_refl c) (order_by_Permutation _)).
  rewrite in_map_iff. split.
  - intros [[u' c'] [Hc Hin]]. apply filter_In in Hin. simpl in *.
    destruct Hin as [Hin Hu]. apply String.eqb_eq in Hu. now subst.
  - intros Hin. exists (mkCategory u c). split; [reflexivity|].
    apply filter_In. split; [exact Hin|]. simpl. apply String.eqb_refl.
Qed.

Lemma user_categories_NoDup (u : string) (rows : list CategoryRow) :
  NoDup rows ->
  NoDup (map c_category
             (filter (fun r => String.eqb (c_username r) u) rows)).
Proof.
  induction rows as [|[u' c'] rows IH]; simpl; intros Hnd; [constructor|].
  apply NoDup_cons_iff in Hnd. destruct Hnd as [Hx Hnd].
  destruct (String.eqb u' u) eqn:Hu; simpl; [|now apply IH].
  apply String.eqb_eq in Hu. subst u'.
  constructor; [|now apply IH].
  intros Hin. apply Hx. apply in_map_iff in Hin.
  destruct Hin as [[u2 c2] [Hc Hin]]. apply filter_In in Hin. simpl in *.
  destruct Hin as [Hin Hu2]. apply String.eqb_eq in Hu2. now subst.
Qed.

Lemma insert_or_ignore_category_rows (u c : string) (d : Db) :
  (forall r, In r (categories (Sql.insert_or_ignore_category u c d))
             <-> In r (categories d) \/ r = mkCategory u c)
  /\ forall u', u' <> u ->
       filter (fun r => String.eqb (c_username r) u')
              (categories (Sql.insert_or_ignore_category u c d))
       = filter (fun r => String.eqb (c_username r) u') (categories d).
Proof.
  unfold Sql.insert_or_ignore_category, Sql.insert_category.
  destruct (existsb _ _) eqn:Hex; simpl.
  - apply existsb_category_key in Hex. split; [|reflexivity].
    intros r. split; [tauto|]. intros [H| ->]; auto.
  - split.
    + intros r. rewrite in_app_iff. simpl. intuition.
    + intros u' Hne. rewrite filter_app. simpl.
      replace (String.eqb u u') with false
        by (symmetry; apply String.eqb_neq; congruence).
      apply app_nil_r.
Qed.

(** The category rows after the loop over the default names. *)
Lemma seed_categories_rows (u : string) (cats : list string) (d : Db) :
  let d' := fold_left (fun acc cat => Sql.insert_or_ignore_category u cat acc)
                      cats d in
  (forall r, In r (categories d')
             <-> In r (categories d)
                 \/ exists c, In c cats /\ r = mkCategory u c)
  /\ forall u', u' <> u ->
       filter (fun r => String.eqb (c_username r) u') (categories d')
       = filter (fun r => String.eqb (c_username r) u') (categories d).
Proof.
  cbv zeta. revert d. induction cats as [|c cats IH]; intros d; simpl.
  - split; [|reflexivity]. intros r. split; [tauto|].
    intros [H|[c [[] _]]]. exact H.
  - destruct (IH (Sql.insert_or_ignore_category u c d)) as [Hin Hoth].
    destruct (insert_or_ignore_category_rows u c d) as [Hone Hone'].
    split.
    + intros r. rewrite Hin, Hone. split.
      * intros [[H|H]|[c' [Hc' H]]]; eauto 6.
      * intros [H|[c' [[<-|Hc'] H]]]; eauto 6.
    + intros u' Hne. now rewrite (Hoth u' Hne), (Hone' u' Hne).
Qed.

Section CategoryListing.

Variable hash : string -> string.

(** X9: get_categories lists the names of the category rows of the user,
    and only those, in ascending order; in a state reached from the empty
    database it lists no name twice. *)
Theorem get_categories_sorted_listing (u : string) (db : Db) :
  Sorted string_le (get_categories u db)
  /\ (forall c, In c (get_categories u db)
                <-> In (mkCategory u c) (categories db))
  /\ List.length (get_categories u db)
     = List.length (filter (fun r => String.eqb (c_username r) u)
                           (categories db))
  /\ (reachable hash db -> NoDup (get_categories u db)).
Proof.
  split; [apply order_by_Sorted|].
  split; [intros c; apply get_categories_In|]. split.
  - unfold get_categories.
    rewrite <- (Permutation_length (order_by_Permutation _)).
    apply length_map.
  - intros Hreach. unfold get_categories.
    eapply Permutation_NoDup; [apply order_by_Permutation|].
    apply user_categories_NoDup.
    exact (reachable_categories_NoDup hash db Hreach).
Qed.

(** X10: a signup that succeeds leaves the new user with all five default
    categories in the listing, and changes the category listing of no other
    user. *)
Theorem signup_seeds_default_categories (u p : string) (db : Db) :
  fst (signup_user hash u p db) = true ->
  (forall c, In c DEFAULT_CATEGORIES ->
             In c (get_categories u (snd (signup_user hash u p db))))
  /\ (forall c, In c (get_categories u (snd (signup_user hash u p db))) ->
                In c DEFAULT_CATEGORIES \/ In c (get_categories u db))
  /\ (forall u', u' <> u ->
                 get_categories u' (snd (signup_user hash u p db))
                 = get_categories u' db).
Proof.
  unfold signup_user, Sql.insert_user.
  destruct (existsb (Sql.user_key u) (users db)); cbn [fst snd];
    [discriminate|].
  intros _.
  set (db1 := mkDb (users db ++ [mkUser u (hash p)]) (categories db)
                   (expenses db) (expenses_seq db) (budget db)).
  destruct (seed_categories_rows u DEFAULT_CATEGORIES db1) as [Hin Hoth].
  split; [|split].
  - intros c Hc. apply get_categories_In. apply Hin. right. eauto.
  - intros c Hc. apply get_categories_In in Hc. apply Hin in Hc.
    destruct Hc as [Hc|[c' [Hc' [= ->]]]]; [|now left].
    right. now apply get_categories_In.
  - intros u' Hne. unfold get_categories. now rewrite (Hoth u' Hne).
Qed.

End CategoryListing.

Lemma signup_seeds_default_categories_witness :
  (forall c, In c DEFAULT_CATEGORIES ->
             In c (get_categories "bob"
                     (snd (signup_user toy_hash "bob" "pw" db_alice))))
  /\ (forall c, In c (get_categories "bob"
                        (snd (signup_user toy_hash "bob" "pw" db_alice))) ->
                In c DEFAULT_CATEGORIES \/ In c (get_categories "bob" db_alice))
  /\ (forall u', u' <> "bob" ->
                 get_categories u'
                   (snd (signup_user toy_hash "bob" "pw" db_alice))
                 = get_categories u' db_alice).
Proof.
  apply (signup_seeds_default_categories toy_hash "bob" "pw" db_alice).
  reflexivity.
Defined.

(** X11: a category that was just used cannot be deleted.  Right after an
    expense was added under a category, or a budget was set for it,
    delete_category for that owner and name changes nothing; once the only
    expense that names the category is deleted again, and no budget names
    it, delete_category removes the row. *)
Theorem delete_category_after_use
        (u d c : string) (a l : Q) (descr : string) (db : Db) :
  delete_category u c (add_expense u d c a descr db)
  = add_expense u d c a descr db
  /\ delete_category u c (set_budget u c l db) = set_budget u c l db
  /\ (Sql.count_expenses u c db = O -> Sql.count_budget u c db = O ->
      ~ In (mkCategory u c)
           (categories
              (delete_category u c
                 (delete_expense (Sql.next_expense_id db)
                    (add_expense u d c a descr db))))).
Proof.
  split; [|split].
  - apply delete_category_blocked. left.
    unfold Sql.count_expenses, add_expense. simpl.
    rewrite filter_app, length_app. simpl.
    unfold Sql.expense_ref at 2. simpl. rewrite !String.eqb_refl. simpl.
    lia.
  - apply delete_category_blocked. right.
    unfold Sql.count_budget, set_budget. simpl.
    rewrite filter_app, length_app. simpl.
    unfold Sql.budget_key at 3. simpl. rewrite !String.eqb_refl. simpl.
    lia.
  - intros He Hb.
    destruct (add_then_delete_expense_rows u d c a descr db) as [Hexp Hbud].
    rewrite delete_category_free.
    + rewrite delete_category_rows_In. tauto.
    + unfold Sql.count_expenses. now rewrite Hexp.
    + unfold Sql.count_budget. now rewrite Hbud.
Qed.

(** ** Budget status *)

Section BudgetStatus.

Import PrimFloat.

(** Comparing two binary floats in the other order gives the opposite
    answer. *)
Lemma SFcompare_antisym (a b : SpecFloat.spec_float) :
  SpecFloat.SFcompare b a = option_map CompOpp (SpecFloat.SFcompare a b).
Proof.
  destruct a as [sa|sa| |sa ma ea], b as [sb|sb| |sb mb eb];
    try destruct sa; try destruct sb; try reflexivity; simpl;
    rewrite (Z.compare_antisym ea eb); destruct (ea ?= eb)%Z; simpl;
    try reflexivity; rewrite Pos.compare_cont_antisym; simpl;
    rewrite ?CompOpp_involutive; reflexivity.
Qed.

Lemma leb_ltb_false (x y : float) :
  (x <=? y)%float = true -> (y <? x)%float = false.
Proof.
  rewrite FloatAxioms.leb_spec, FloatAxioms.ltb_spec.
  unfold SpecFloat.SFleb, SpecFloat.SFltb.
  rewrite (SFcompare_antisym (FloatOps.Prim2SF x) (FloatOps.Prim2SF y)).
  destruct (SpecFloat.SFcompare (FloatOps.Prim2SF x) (FloatOps.Prim2SF y))
    as [[ | | ]|]; simpl; congruence.
Qed.

(** A double that is at most 0.8 does not exceed 1. *)
Lemma leb_point_eight_one (x : float) :
  (x <=? Ieee.point_eight)%float = true -> (1 <? x)%float = false.
Proof.
  rewrite FloatAxioms.leb_spec, FloatAxioms.ltb_spec.
  replace (FloatOps.Prim2SF Ieee.point_eight)
    with (SpecFloat.S754_finite false 7205759403792794 (-53))
    by (vm_compute; reflexivity).
  replace (FloatOps.Prim2SF 1)
    with (SpecFloat.S754_finite false 4503599627370496 (-52))
    by (vm_compute; reflexivity).
  unfold SpecFloat.SFleb, SpecFloat.SFltb.
  destruct (FloatOps.Prim2SF x) as [s|s| |s m e]; try destruct s;
    cbn [SpecFloat.SFcompare]; try congruence.
  destruct (e ?= -53)%Z eqn:He; try discriminate; intros _.
  - apply Z.compare_eq in He. subst e. reflexivity.
  - change (e < -53)%Z in He.
    replace (-52 ?= e)%Z with Gt; [reflexivity|].
    symmetry. apply Z.compare_gt_iff. lia.
Qed.

Section Frames.

Variable series_sum : list float -> float.

Lemma group_keys_In (c : string) (rows : list Ieee.Expense) :
  In c (Ieee.group_keys rows) <-> In c (map Ieee.x_category rows).
Proof.
  unfold Ieee.group_keys.
  rewrite <- (nodup_In string_dec (map Ieee.x_category rows) c).
  split; intros H.
  - exact (Permutation_in _ (Permutation_sym (order_by_Permutation _)) H).
  - exact (Permutation_in _ (order_by_Permutation _) H).
Qed.

Lemma group_keys_NoDup (rows : list Ieee.Expense) :
  NoDup (Ieee.group_keys rows).
Proof.
  eapply Permutation_NoDup; [apply order_by_Permutation|apply NoDup_nodup].
Qed.

Lemma group_amounts_nil (c : string) (rows : list Ieee.Expense) :
  Ieee.group_amounts c rows = [] <-> ~ In c (map Ieee.x_category rows).
Proof.
  unfold Ieee.group_amounts.
  induction rows as [|r rows IH]; simpl; [tauto|].
  destruct (String.eqb (Ieee.x_category r) c) eqn:He; simpl.
  - apply String.eqb_eq in He. split; [discriminate|]. intros H.
    exfalso. apply H. now left.
  - apply String.eqb_neq in He. rewrite IH. tauto.
Qed.

(** The rows of a keyed frame under one key, when no key occurs twice. *)
Lemma filter_keyed (f : string -> float) (c : string) (ks : list string) :
  NoDup ks ->
  filter (fun s => String.eqb (fst s) c) (map (fun k => (k, f k)) ks)
  = if in_dec string_dec c ks then [(c, f c)] else [].
Proof.
  induction 1 as [|k ks Hk Hnd IH]; [reflexivity|].
  cbn [map filter fst]. rewrite IH.
  destruct (String.eqb k c) eqn:He.
  - apply String.eqb_eq in He. subst k.
    destruct (in_dec string_dec c ks) as [Hin|_]; [contradiction|].
    destruct (in_dec string_dec c (c :: ks)) as [_|Hno]; [reflexivity|].
    exfalso. apply Hno. now left.
  - apply String.eqb_neq in He.
    destruct (in_dec string_dec c ks) as [Hin|Hno];
      destruct (in_dec string_dec c (k :: ks)) as [Hin'|Hno'];
      try reflexivity.
    + exfalso. apply Hno'. now right.
    + destruct Hin' as [Heq|Hin']; [congruence|contradiction].
Qed.

(** The amount the merged frame holds for one budget row. *)
Lemma merged_amount (b : Ieee.Budget) (rows : list Ieee.Expense) :
  exists x,
    match filter (fun s => String.eqb (fst s) (Ieee.l_category b))
                 (Ieee.spent_by_cat series_sum rows) with
    | [] => [(b, nan)]
    | hits => map (fun s => (b, snd s)) hits
    end = [(b, x)]
    /\ Ieee.fillna x = Ieee.spent series_sum (Ieee.l_category b) rows.
Proof.
  unfold Ieee.spent.
  destruct rows as [|r rows]; [exists nan; split; reflexivity|].
  unfold Ieee.spent_by_cat, Ieee.groupby_sum.
  rewrite (filter_keyed _ _ _ (group_keys_NoDup (r :: rows))).
  destruct (in_dec string_dec (Ieee.l_category b)
                   (Ieee.group_keys (r :: rows))) as [Hin|Hno].
  - eexists. split; [reflexivity|]. cbn [snd].
    apply group_keys_In in Hin.
    destruct (Ieee.group_amounts (Ieee.l_category b) (r :: rows)) eqn:Ha;
      [|reflexivity].
    apply group_amounts_nil in Ha. contradiction.
  - exists nan. split; [reflexivity|].
    rewrite group_keys_In in Hno. apply group_amounts_nil in Hno.
    rewrite Hno. reflexivity.
Qed.

(** How the loop body sorts a row by its limit and status. *)
Lemma row_alert_classes (cat : string) (limit amount : float) :
  let ratio := (amount / limit)%float in
  let m := Ieee.merged_row cat limit amount ratio in
  ((limit <=? 0)%float = true -> Ieee.row_alert m = None)
  /\ ((limit <=? 0)%float = false -> (1 <? ratio)%float = true ->
      Ieee.row_alert m
      = Some (Ieee.mkAlert Ieee.OverBudget cat amount limit))
  /\ ((limit <=? 0)%float = false ->
      (Ieee.point_eight <? ratio)%float = true ->
      (ratio <=? 1)%float = true ->
      Ieee.row_alert m
      = Some (Ieee.mkAlert Ieee.AlmostAtLimit cat amount limit))
  /\ ((limit <=? 0)%float = false ->
      (ratio <=? Ieee.point_eight)%float = true ->
      Ieee.row_alert m = None).
Proof.
  cbv zeta. unfold Ieee.row_alert.
  cbn [Ieee.r_monthly_limit Ieee.r_status Ieee.r_category Ieee.r_amount].
  split; [intros ->; reflexivity|].
  split; [intros -> ->; reflexivity|].
  split.
  - intros -> H8 H1. apply leb_ltb_false in H1. now rewrite H1, H8.
  - intros -> H8. rewrite (leb_point_eight_one _ H8).
    apply leb_ltb_false in H8. now rewrite H8.
Qed.

End Frames.

(** C1: the merged frame holds one row per budget row, in the order of the
    budget rows, with the category and the limit of that row.  Its amount is
    the sum pandas takes over the month's expenses of the category, 0.0 when
    there is none (and when that sum is not a number), and its status is the
    double [amount / monthly_limit].  The loop skips a row whose limit is 0
    or less; otherwise it warns that the category is over budget when the
    status exceeds 1, notes that it is almost at the limit when the status
    exceeds 0.8 without exceeding 1, and is silent when the status is 0.8 or
    less, all compared as doubles.  With the sums taken in row order: a Food
    budget of 100 with 100 and 50 spent has status 1.5 and is over budget, a
    budget of 0 is skipped, nothing spent of 200 is silent and 45 of 50 is
    almost at the limit; 0.1 and 0.2 spent of 0.3 sum to
    0.30000000000000004, a status of 1.0000000000000002, and are over
    budget; 0.8 spent of 1 gives no alert. *)
Theorem budget_status_rows :
  (forall (series_sum : list float -> float)
          (bud_df : list Ieee.Budget) (month_expenses : list Ieee.Expense),
      Forall2
        (fun b m =>
           let amounts :=
             Ieee.group_amounts (Ieee.l_category b) month_expenses in
           let spent :=
             Ieee.spent series_sum (Ieee.l_category b) month_expenses in
           let limit := Ieee.l_monthly_limit b in
           let ratio := (spent / limit)%float in
           Ieee.r_category m = Ieee.l_category b
           /\ Ieee.r_monthly_limit m = limit
           /\ Ieee.r_amount m = spent
           /\ (amounts = [] -> spent = 0%float)
           /\ (amounts <> [] -> is_nan (series_sum amounts) = false ->
               spent = series_sum amounts)
           /\ Ieee.r_status m = ratio
           /\ ((limit <=? 0)%float = true -> Ieee.row_alert m = None)
           /\ ((limit <=? 0)%float = false -> (1 <? ratio)%float = true ->
               Ieee.row_alert m
               = Some (Ieee.mkAlert Ieee.OverBudget (Ieee.l_category b)
                                    spent limit))
           /\ ((limit <=? 0)%float = false ->
               (Ieee.point_eight <? ratio)%float = true ->
               (ratio <=? 1)%float = true ->
               Ieee.row_alert m
               = Some (Ieee.mkAlert Ieee.AlmostAtLimit (Ieee.l_category b)
                                    spent limit))
           /\ ((limit <=? 0)%float = false ->
               (ratio <=? Ieee.point_eight)%float = true ->
               Ieee.row_alert m = None))
        bud_df (Ieee.merged_frame series_sum bud_df month_expenses))
  /\ map (fun m => (Ieee.r_amount m, Ieee.r_status m,
                    option_map Ieee.a_kind (Ieee.row_alert m)))
         (Ieee.merged_frame Ieee.sum_in_order
                            Ieee.sample_budget Ieee.sample_spending)
     = [ (150%float, 1.5%float, Some Ieee.OverBudget);
         (20%float, infinity, None);
         (0%float, 0%float, None);
         (45%float, 0x1.ccccccccccccdp-1%float, Some Ieee.AlmostAtLimit) ]
  /\ map Ieee.a_category
         (Ieee.budget_alerts Ieee.sum_in_order
                             Ieee.sample_budget Ieee.sample_spending)
     = ["Food"; "Transport"]
  /\ map (fun m => (Ieee.r_amount m, Ieee.r_status m,
                    option_map Ieee.a_kind (Ieee.row_alert m)))
         (Ieee.merged_frame Ieee.sum_in_order
                            Ieee.sample_small_budget Ieee.sample_small_spending)
     = [ (0x1.3333333333334p-2%float, 0x1.0000000000001p+0%float,
          Some Ieee.OverBudget);
         (Ieee.point_eight, Ieee.point_eight, None) ].
Proof.
  split; [|repeat split; vm_compute; reflexivity].
  intros series_sum bud_df mexp. unfold Ieee.merged_frame, Ieee.merge_left.
  induction bud_df as [|b bud IH]; [constructor|].
  cbn [flat_map]. rewrite map_app.
  destruct (merged_amount series_sum b mexp) as [x [-> Hx]].
  cbn [map app fst snd]. constructor; [|exact IH].
  cbv zeta. rewrite Hx.
  cbn [Ieee.r_category Ieee.r_monthly_limit Ieee.r_amount Ieee.r_status].
  split; [reflexivity|]. split; [reflexivity|]. split; [reflexivity|].
  split.
  { unfold Ieee.spent. now intros ->. }
  split.
  { unfold Ieee.spent, Ieee.fillna.
    destruct (Ieee.group_amounts (Ieee.l_category b) mexp) as [|a amounts];
      [congruence|].
    now intros _ ->. }
  split; [reflexivity|].
  exact (row_alert_classes (Ieee.l_category b) (Ieee.l_monthly_limit b)
                           (Ieee.spent series_sum (Ieee.l_category b) mexp)).
Qed.

End BudgetStatus.

(** ** Date texts *)

Lemma nat_of_digit_char (n : Z) :
  nat_of_ascii (digit_char n) = (48 + Z.to_nat (n mod 10))%nat.
Proof.
  unfold digit_char. apply nat_ascii_embedding.
  pose proof (Z.mod_pos_bound n 10). lia.
Qed.

Lemma is_digit_digit_char (n : Z) : is_digit (digit_char n) = true.
Proof.
  unfold is_digit. rewrite nat_of_digit_char.
  pose proof (Z.mod_pos_bound n 10).
  apply andb_true_iff. split; apply Nat.leb_le; lia.
Qed.

Lemma digit_char_inj (a b : Z) :
  digit_char a = digit_char b -> a mod 10 = b mod 10.
Proof.
  intros H. apply (f_equal nat_of_ascii) in H.
  rewrite !nat_of_digit_char in H.
  pose proof (Z.mod_pos_bound a 10). pose proof (Z.mod_pos_bound b 10). lia.
Qed.

Lemma pad2_inj (a b : Z) :
  0 <= a < 100 -> 0 <= b < 100 -> pad2 a = pad2 b -> a = b.
Proof.
  intros Ha Hb. unfold pad2. intros [= H1 H0].
  apply digit_char_inj in H1, H0.
  revert H1 H0. Z.div_mod_to_equations. lia.
Qed.

Lemma pad4_inj (a b : Z) :
  0 <= a < 10000 -> 0 <= b < 10000 -> pad4 a = pad4 b -> a = b.
Proof.
  intros Ha Hb. unfold pad4, pad2. intros [= H3 H2 H1 H0].
  apply digit_char_inj in H3, H2, H1, H0.
  revert H3 H2 H1 H0. Z.div_mod_to_equations. lia.
Qed.

Lemma strftime_Y_m_d_iso (d : CalDate) : is_iso_date (strftime_Y_m_d d) = true.
Proof.
  unfold strftime_Y_m_d, pad4, pad2, is_iso_date.
  cbn [append list_ascii_of_string].
  now rewrite !is_digit_digit_char.
Qed.

(** X13: the texts that strftime prints for a date.  The text of
    '%Y-%m-%d' has the shape YYYY-MM-DD, starts with the month key '%Y-%m' of
    the same date, and determines the date; two dates have the same month key
    text exactly when they agree on year and month, whatever their days. *)
Theorem date_texts (d1 d2 : CalDate) (t1 t2 : Z) :
  printable_date d1 -> printable_date d2 ->
  is_iso_date (strftime_Y_m_d d1) = true
  /\ substring 0 7 (strftime_Y_m_d d1) = strftime_Y_m (mkTs d1 t1)
  /\ (strftime_Y_m_d d1 = strftime_Y_m_d d2 -> d1 = d2)
  /\ (strftime_Y_m (mkTs d1 t1) = strftime_Y_m (mkTs d2 t2)
      <-> month_key_eqb (current_month_key (mkTs d1 t1))
                        (current_month_key (mkTs d2 t2)) = true).
Proof.
  intros [Hy1 [Hm1 Hd1]] [Hy2 [Hm2 Hd2]].
  split; [apply strftime_Y_m_d_iso|]. split.
  { unfold strftime_Y_m_d, strftime_Y_m, pad4, pad2.
    cbn [append substring ts_date]. reflexivity. }
  split.
  - destruct d1 as [y1 m1 dd1], d2 as [y2 m2 dd2].
    cbn [year month day] in *.
    unfold strftime_Y_m_d, pad4, pad2. cbn [append year month day].
    intros [= H3 H2 H1 H0 M1 M0 D1 D0].
    f_equal.
    + apply pad4_inj; [lia|lia|]. unfold pad4, pad2. congruence.
    + apply pad2_inj; [lia|lia|]. unfold pad2. congruence.
    + apply pad2_inj; [lia|lia|]. unfold pad2. congruence.
  - unfold month_key_eqb, current_month_key, strftime_Y_m, pad4, pad2.
    cbn [append ts_date fst snd].
    rewrite andb_true_iff, !Z.eqb_eq. split.
    + intros [= H3 H2 H1 H0 M1 M0]. split.
      * apply pad4_inj; [lia|lia|]. unfold pad4, pad2. congruence.
      * apply pad2_inj; [lia|lia|]. unfold pad2. congruence.
    + intros [-> ->]. reflexivity.
Qed.

Lemma date_texts_witness :
  is_iso_date (strftime_Y_m_d (mkDate 2024 3 15)) = true
  /\ substring 0 7 (strftime_Y_m_d (mkDate 2024 3 15))
     = strftime_Y_m (mkTs (mkDate 2024 3 15) 0)
  /\ (strftime_Y_m_d (mkDate 2024 3 15) = strftime_Y_m_d (mkDate 2024 3 1) ->
      mkDate 2024 3 15 = mkDate 2024 3 1)
  /\ (strftime_Y_m (mkTs (mkDate 2024 3 15) 0)
      = strftime_Y_m (mkTs (mkDate 2024 3 1) 0)
      <-> month_key_eqb (current_month_key (mkTs (mkDate 2024 3 15) 0))
                        (current_month_key (mkTs (mkDate 2024 3 1) 0)) = true).
Proof.
  apply (date_texts (mkDate 2024 3 15) (mkDate 2024 3 1) 0 0);
    unfold printable_date; cbn [year month day]; lia.
Defined.

(** * The pages *)

Lemma select_password_registered (u h : string) (db : Db) :
  Sql.select_password u db = Some h -> registered u db.
Proof.
  unfold Sql.select_password, registered.
  destruct (find (Sql.user_key u) (users db)) as [row|] eqn:Hf;
    [|discriminate].
  intros _. apply find_some in Hf. destruct Hf as [Hin Hkey].
  apply String.eqb_eq in Hkey. rewrite <- Hkey. now apply in_map.
Qed.

Lemma user_exists_registered (u : string) (db : Db) :
  user_exists u db = true <-> registered u db.
Proof.
  rewrite user_exists_existsb. apply existsb_user_key.
Qed.

Lemma truthy_nonempty (s : string) : PyStr.truthy s = true <-> s <> EmptyString.
Proof. destruct s; simpl; split; congruence. Qed.

Section PageFacts.

Variable hash : string -> string.
Variable label : string.

(** The database after a signup under a free username. *)
Lemma signup_user_rows (u p : string) (db : Db) :
  user_exists u db = false ->
  fst (signup_user hash u p db) = true
  /\ users (snd (signup_user hash u p db))
     = (users db ++ [mkUser u (hash p)])%list
  /\ (forall r, In r (categories (snd (signup_user hash u p db)))
                <-> In r (categories db)
                    \/ exists c, In c DEFAULT_CATEGORIES /\ r = mkCategory u c)
  /\ expenses (snd (signup_user hash u p db)) = expenses db
  /\ expenses_seq (snd (signup_user hash u p db)) = expenses_seq db
  /\ budget (snd (signup_user hash u p db)) = budget db.
Proof.
  intros Hfree. rewrite user_exists_existsb in Hfree.
  unfold signup_user, Sql.insert_user. rewrite Hfree. cbn [fst snd].
  set (db1 := mkDb (users db ++ [mkUser u (hash p)]) (categories db)
                   (expenses db) (expenses_seq db) (budget db)).
  destruct (seed_categories_frame u DEFAULT_CATEGORIES db1)
    as [Hu [He [Hs Hb]]].
  destruct (seed_categories_rows u DEFAULT_CATEGORIES db1) as [Hc _].
  repeat split; auto; apply Hc.
Qed.

(** X14: the Create Account button.  It creates the account exactly when
    both fields are filled and the username is free, and then the new
    credentials log in and no existing account is touched; in every other
    case it leaves the session and the database as they were.  It never
    reports that the account could not be created. *)
Theorem create_account_form (new_user new_pass : string) (s : Session) :
  let r := create_account_click hash new_user new_pass s in
  snd r <> FailedToCreate
  /\ (snd r = AccountCreated
      <-> new_user <> EmptyString /\ new_pass <> EmptyString
          /\ user_exists new_user (s_db s) = false)
  /\ (snd r = FillBothFields
      <-> new_user = EmptyString \/ new_pass = EmptyString)
  /\ (snd r <> AccountCreated -> fst r = s)
  /\ (snd r = AccountCreated ->
      auth_user (fst r) = auth_user s
      /\ login_user hash new_user new_pass (s_db (fst r)) = true
      /\ forall u, user_exists u (s_db s) = true ->
                   Sql.select_password u (s_db (fst r))
                   = Sql.select_password u (s_db s)).
Proof.
  cbv zeta. unfold create_account_click.
  destruct new_user as [|a u]; [simpl; intuition congruence|].
  destruct new_pass as [|b p]; [simpl; intuition congruence|].
  cbn [PyStr.truthy negb orb].
  destruct (user_exists (String a u) (s_db s)) eqn:Hex.
  - cbn [fst snd]. intuition congruence.
  - destruct (signup_user_fresh hash (String a u) (String b p) (s_db s) Hex)
      as [Hok Hrow].
    rewrite Hok. cbn [fst snd s_db auth_user].
    split; [discriminate|]. split; [intuition congruence|].
    split; [intuition congruence|]. split; [congruence|].
    intros _. split; [reflexivity|]. split.
    + unfold login_user. rewrite Hrow. apply String.eqb_refl.
    + intros v Hv.
      exact (exec_select_password hash (OpSignup (String a u) (String b p))
                                  (s_db s) v Hv).
Qed.

Lemma category_option_stored (u c : string) (s : Session) :
  well_formed s -> registered u (s_db s) ->
  In c (category_options label (get_categories u (s_db s))) ->
  In c DEFAULT_CATEGORIES.
Proof.
  intros [_ [Husers [Hcats _]]] Hreg Hin.
  assert (Hfood : In "Food" (get_categories u (s_db s))).
  { apply get_categories_In. apply (Husers u Hreg). now left. }
  unfold category_options in Hin.
  destruct (get_categories u (s_db s)) as [|x l] eqn:Hl; [destruct Hfood|].
  rewrite <- Hl in Hin. apply get_categories_In in Hin.
  exact (proj2 (Hcats _ Hin)).
Qed.

Lemma ui_step_well_formed (s s' : Session) :
  ui_step hash label s s' -> well_formed s -> well_formed s'.
Proof.
  intros Hstep Hwf.
  pose proof Hwf as [Hauth [Husers [Hcats [Hexp [Hbud Hids]]]]].
  destruct Hstep as [s u p Hout|s u p Hout|s u Hin|s u d c a descr Hin Hd Hc Ha
                     |s u c l Hin Hc Hl|s u i Hin Hi].
  - unfold login_click, login_user.
    destruct (Sql.select_password u (s_db s)) as [h|] eqn:Hsel;
      [|exact Hwf].
    destruct (String.eqb h (hash p)); [|exact Hwf].
    cbn [fst]. unfold well_formed. cbn [s_db auth_user].
    repeat split; try (intros; now (apply Husers || apply Hcats
                                    || apply Hexp || apply Hbud));
      try apply Hids.
    intros v [= <-]. exact (select_password_registered _ _ _ Hsel).
  - unfold create_account_click.
    destruct (negb (PyStr.truthy u) || negb (PyStr.truthy p)) eqn:Hfill;
      [exact Hwf|].
    destruct (user_exists u (s_db s)) eqn:Hex; [exact Hwf|].
    destruct (signup_user_rows u p (s_db s) Hex)
      as [Hok [Hu [Hc [He [Hs Hb]]]]].
    rewrite Hok. cbn [fst]. unfold well_formed. cbn [s_db auth_user].
    assert (Hmono : forall v, registered v (s_db s) ->
                              registered v (snd (signup_user hash u p (s_db s)))).
    { intros v Hv. unfold registered. rewrite Hu, map_app.
      apply in_or_app. now left. }
    assert (Hnew : registered u (snd (signup_user hash u p (s_db s)))).
    { unfold registered. rewrite Hu, map_app. apply in_or_app. right.
      now left. }
    split; [intros v Hv; apply Hmono; now apply Hauth|].
    split; [|split; [|split; [|split]]].
    + intros v Hv. unfold registered in Hv. rewrite Hu, map_app in Hv.
      apply in_app_or in Hv. destruct Hv as [Hv|[<-|[]]].
      * split; [apply (Husers v Hv)|]. intros c Hcin. apply Hc. left.
        now apply (Husers v Hv).
      * split.
        -- apply orb_false_iff in Hfill. destruct Hfill as [Hfu _].
           apply negb_false_iff, truthy_nonempty in Hfu. exact Hfu.
        -- intros c Hcin. apply Hc. right. eauto.
    + intros r Hr. apply Hc in Hr. destruct Hr as [Hr|[c [Hcin ->]]].
      * split; [apply Hmono|]; now apply Hcats.
      * split; [exact Hnew|exact Hcin].
    + intros e Hein. rewrite He in Hein. destruct (Hexp e Hein) as [H1 H2].
      split; [now apply Hmono|exact H2].
    + intros b Hbin. rewrite Hb in Hbin. destruct (Hbud b Hbin) as [H1 H2].
      split; [now apply Hmono|exact H2].
    + unfold ids_in_sequence. rewrite He, Hs. exact Hids.
  - unfold logout_click, well_formed. cbn [s_db auth_user].
    repeat split; try (intros; now (apply Husers || apply Hcats
                                    || apply Hexp || apply Hbud));
      try apply Hids.
    discriminate.
  - assert (Hreg : registered u (s_db s)) by now apply Hauth.
    unfold add_expense_click, well_formed. cbn [s_db auth_user].
    split; [intros v [= <-]; exact Hreg|].
    split; [exact Husers|]. split; [exact Hcats|].
    split; [|split; [exact Hbud|now apply insert_expense_ids]].
    intros e Hein. simpl in Hein. apply in_app_or in Hein.
    destruct Hein as [Hein|[<-|[]]]; [now apply Hexp|].
    cbn [e_username e_category e_amount e_date e_description].
    split; [exact Hreg|].
    split; [exact (category_option_stored u c s Hwf Hreg Hc)|].
    split; [exact Ha|]. split; [apply strftime_Y_m_d_iso|].
    destruct (strip_spec descr) as [pre [post [_ [_ [_ Htrim]]]]].
    exact Htrim.
  - assert (Hreg : registered u (s_db s)) by now apply Hauth.
    unfold save_budget_click, well_formed. cbn [s_db auth_user].
    split; [intros v [= <-]; exact Hreg|].
    split; [exact Husers|]. split; [exact Hcats|].
    split; [exact Hexp|]. split; [|exact Hids].
    intros b Hbin. simpl in Hbin. apply in_app_or in Hbin.
    destruct Hbin as [Hbin|[<-|[]]].
    + apply filter_In in Hbin. now apply Hbud.
    + cbn [b_username b_category b_monthly_limit].
      split; [exact Hreg|]. split; [|exact Hl].
      apply get_categories_In in Hc. exact (proj2 (Hcats _ Hc)).
  - assert (Hreg : registered u (s_db s)) by now apply Hauth.
    unfold delete_expense_click, well_formed. cbn [s_db auth_user].
    split; [intros v [= <-]; exact Hreg|].
    split; [exact Husers|]. split; [exact Hcats|].
    split; [|split; [exact Hbud|now apply delete_expense_rows_ids]].
    intros e Hein. simpl in Hein. apply filter_In in Hein. now apply Hexp.
Qed.

Lemma ui_reachable_well_formed (s : Session) :
  ui_reachable hash label s -> well_formed s.
Proof.
  induction 1 as [|s s' _ IH Hstep].
  - unfold well_formed, registered, ids_in_sequence. simpl.
    split; [intros u Hu; discriminate|]. split; [intros u []|].
    split; [intros r []|]. split; [intros e []|]. split; [intros b []|].
    split; constructor.
  - exact (ui_step_well_formed s s' Hstep IH).
Qed.

End PageFacts.

Lemma same_key_same_row {A B : Type} (f : A -> B) (l : list A) (x y : A) :
  NoDup (map f l) -> In x l -> In y l -> f x = f y -> x = y.
Proof.
  induction l as [|z l IH]; simpl; intros Hnd Hx Hy Hxy; [destruct Hx|].
  apply NoDup_cons_iff in Hnd. destruct Hnd as [Hz Hnd].
  destruct Hx as [->|Hx], Hy as [->|Hy]; auto.
  - exfalso. apply Hz. rewrite Hxy. now apply in_map.
  - exfalso. apply Hz. rewrite <- Hxy. now apply in_map.
Qed.

Lemma get_expenses_add_expense_other
      (u v d c : string) (a : Q) (descr : string) (db : Db) :
  v <> u -> get_expenses v (add_expense u d c a descr db) = get_expenses v db.
Proof.
  intros Hne. unfold get_expenses, add_expense, Sql.insert_expense.
  simpl expenses. rewrite filter_app. simpl.
  replace (String.eqb u v) with false
    by (symmetry; apply String.eqb_neq; congruence).
  now rewrite app_nil_r.
Qed.

Lemma get_expenses_owner (u : string) (db : Db) (r : DfRow string) :
  In r (get_expenses u db) ->
  exists e, In e (expenses db) /\ e_id e = df_id r /\ e_username e = u.
Proof.
  unfold get_expenses. rewrite in_map_iff. intros [e [<- He]].
  apply filter_In in He. destruct He as [He Hu].
  apply String.eqb_eq in Hu. exists e. auto.
Qed.

Section PageTheorems.

Variable hash : string -> string.
Variable label : string.

Lemma ui_step_exec (s s' : Session) :
  ui_step hash label s s' ->
  s_db s' = s_db s \/ exists op, s_db s' = exec hash op (s_db s).
Proof.
  intros [s0 u p Hout|s0 u p Hout|s0 u Hin|s0 u d c a descr Hin Hd Hc Ha
          |s0 u c l Hin Hc Hl|s0 u i Hin Hi].
  - left. unfold login_click. now destruct (login_user _ _ _ _).
  - unfold create_account_click.
    destruct (_ || _); [now left|].
    destruct (user_exists u (s_db s0)); [now left|].
    right. exists (OpSignup u p). cbv zeta.
    now destruct (fst (signup_user hash u p (s_db s0))).
  - now left.
  - right. now exists (OpAddExpense u (strftime_Y_m_d d) c a descr).
  - right. now exists (OpSetBudget u c l).
  - right. now exists (OpDeleteExpense i).
Qed.

Lemma ui_reachable_reachable (s : Session) :
  ui_reachable hash label s -> reachable hash (s_db s).
Proof.
  induction 1 as [|s s' _ IH Hstep]; [constructor|].
  destruct (ui_step_exec s s' Hstep) as [->|[op ->]];
    [exact IH|now constructor].
Qed.

(** X15: whoever is logged in has an account.  In every session the pages
    reach from a fresh database, the logged-in username has a users row with
    a stored password hash, and it is not the empty name. *)
Theorem logged_in_user_has_account (s : Session) (u : string) :
  ui_reachable hash label s -> auth_user s = Some u ->
  user_exists u (s_db s) = true
  /\ u <> EmptyString
  /\ exists h, Sql.select_password u (s_db s) = Some h.
Proof.
  intros Hreach Hauth.
  destruct (ui_reachable_well_formed hash label s Hreach)
    as [Hlogged [Husers _]].
  pose proof (Hlogged u Hauth) as Hreg.
  assert (Hex : user_exists u (s_db s) = true)
    by now apply user_exists_registered.
  split; [exact Hex|]. split; [apply (Husers u Hreg)|].
  unfold user_exists in Hex. unfold Sql.select_password.
  destruct (find (Sql.user_key u) (users (s_db s))) as [row|];
    [|discriminate].
  now exists (u_password row).
Qed.

(** X16: the rows the pages write are checked rows.  In every session
    reached through the pages, every expense belongs to an existing user,
    names a default category, has an amount of at least 0.01, a date of the
    shape YYYY-MM-DD and a trimmed description; every budget belongs to an
    existing user, names a default category and has a limit of at least
    0.01.  So no row of a user's budget overview has a limit of 0 or less,
    and the loop over the overview skips none. *)
Theorem pages_write_checked_rows (s : Session) :
  ui_reachable hash label s ->
  (forall e, In e (expenses (s_db s)) ->
             user_exists (e_username e) (s_db s) = true
             /\ In (e_category e) DEFAULT_CATEGORIES
             /\ (1 # 100 <= e_amount e)%Q
             /\ is_iso_date (e_date e) = true
             /\ PyStr.trimmed (e_description e) = true)
  /\ (forall b, In b (budget (s_db s)) ->
                user_exists (b_username b) (s_db s) = true
                /\ In (b_category b) DEFAULT_CATEGORIES
                /\ (1 # 100 <= b_monthly_limit b)%Q)
  /\ (forall u month_expenses m,
        In m (merged_frame (get_budget u (s_db s)) month_expenses) ->
        Qle_bool (m_monthly_limit m) 0 = false).
Proof.
  intros Hreach.
  destruct (ui_reachable_well_formed hash label s Hreach)
    as [_ [_ [_ [Hexp [Hbud _]]]]].
  split; [|split].
  - intros e He. destruct (Hexp e He) as [H1 H2].
    split; [now apply user_exists_registered|exact H2].
  - intros b Hb. destruct (Hbud b Hb) as [H1 H2].
    split; [now apply user_exists_registered|exact H2].
  - intros u mexp m Hm. unfold merged_frame in Hm.
    apply in_map_iff in Hm. destruct Hm as [[b x] [<- Hin]].
    cbn [m_monthly_limit fst snd].
    assert (Hb : In b (get_budget u (s_db s))).
    { unfold merge_left in Hin. apply in_flat_map in Hin.
      destruct Hin as [b' [Hb' Hin]].
      destruct (filter _ (spent_by_cat mexp)) as [|hit hits].
      - destruct Hin as [[= <- _]|[]]. exact Hb'.
      - apply in_map_iff in Hin. destruct Hin as [s0 [[= <- _] _]].
        exact Hb'. }
    apply get_budget_In in Hb. unfold budget_rows in Hb.
    apply in_map_iff in Hb.
    destruct Hb as [r [<- Hr]]. apply filter_In in Hr.
    destruct (Hbud r (proj1 Hr)) as [_ [_ Hl]]. cbn [bd_monthly_limit].
    apply Qle_bool_gt. eapply Qlt_le_trans; [|exact Hl]. reflexivity.
Qed.

(** X17: through the pages the categories of a user never change.  The
    pages call neither add_category nor delete_category, so in every session
    they reach the category listing of an existing user holds the five
    default names, each once, in ascending order, and a user without an
    account has no category. *)
Theorem pages_keep_default_categories (s : Session) (u : string) :
  ui_reachable hash label s ->
  (user_exists u (s_db s) = true ->
   (forall c, In c (get_categories u (s_db s)) <-> In c DEFAULT_CATEGORIES)
   /\ NoDup (get_categories u (s_db s))
   /\ List.length (get_categories u (s_db s)) = 5%nat
   /\ Sorted string_le (get_categories u (s_db s)))
  /\ (user_exists u (s_db s) = false -> get_categories u (s_db s) = []).
Proof.
  intros Hreach.
  destruct (ui_reachable_well_formed hash label s Hreach)
    as [_ [Husers [Hcats _]]].
  assert (Hnd : NoDup (get_categories u (s_db s))).
  { unfold get_categories.
    eapply Permutation_NoDup; [apply order_by_Permutation|].
    apply user_categories_NoDup.
    apply (reachable_categories_NoDup hash).
    now apply ui_reachable_reachable. }
  split.
  - intros Hex. apply user_exists_registered in Hex.
    assert (Hset : forall c, In c (get_categories u (s_db s))
                             <-> In c DEFAULT_CATEGORIES).
    { intros c. rewrite get_categories_In. split.
      - intros Hin. exact (proj2 (Hcats _ Hin)).
      - intros Hin. now apply (Husers u Hex). }
    split; [exact Hset|]. split; [exact Hnd|]. split; [|apply order_by_Sorted].
    assert (Hdef : NoDup DEFAULT_CATEGORIES).
    { unfold DEFAULT_CATEGORIES.
      repeat (constructor; [simpl; intuition discriminate|]). constructor. }
    change 5%nat with (List.length DEFAULT_CATEGORIES).
    apply Permutation_length. now apply NoDup_Permutation.
  - intros Hex.
    destruct (get_categories u (s_db s)) as [|c l] eqn:Hl; [reflexivity|].
    assert (Hin : In c (get_categories u (s_db s)))
      by (rewrite Hl; now left).
    apply get_categories_In in Hin. destruct (Hcats _ Hin) as [Hreg _].
    apply user_exists_registered in Hreg. simpl in Hreg. congruence.
Qed.

(** X18: the pages keep users apart.  While a user is logged in, no button
    changes what any other user has stored: their expense listing, budget
    list, category listing and password hash stay the same.  In particular
    the Delete Expense button, which offers only the ids of the user's own
    expenses, never removes an expense of somebody else. *)
Theorem pages_isolate_users (s s' : Session) (u : string) :
  ui_reachable hash label s -> auth_user s = Some u ->
  ui_step hash label s s' ->
  forall v, v <> u ->
    get_expenses v (s_db s') = get_expenses v (s_db s)
    /\ get_budget v (s_db s') = get_budget v (s_db s)
    /\ get_categories v (s_db s') = get_categories v (s_db s)
    /\ Sql.select_password v (s_db s') = Sql.select_password v (s_db s).
Proof.
  intros Hreach Hauth Hstep v Hne.
  destruct (ui_reachable_well_formed hash label s Hreach)
    as [_ [_ [_ [_ [_ [Hids _]]]]]].
  destruct Hstep as [s u0 p Hout|s u0 p Hout|s u0 Hin|s u0 d c a descr Hin Hd Hc Ha
                     |s u0 c l Hin Hc Hl|s u0 i Hin Hi];
    try congruence.
  - repeat split.
  - assert (u0 = u) by congruence. subst u0. cbn [s_db].
    unfold add_expense_click.
    split; [now apply get_expenses_add_expense_other|]. repeat split.
  - assert (u0 = u) by congruence. subst u0. cbn [s_db].
    unfold save_budget_click.
    split; [reflexivity|].
    split; [now apply get_budget_set_budget_other|]. repeat split.
  - assert (u0 = u) by congruence. subst u0. cbn [s_db].
    unfold delete_expense_click.
    split; [|repeat split].
    rewrite get_expenses_delete_expense.
    apply forallb_filter_id. apply forallb_forall. intros r Hr.
    apply negb_true_iff, Z.eqb_neq. intros Heq.
    destruct (get_expenses_owner v (s_db s) r Hr) as [ev [Hev [Hidv Hov]]].
    apply in_map_iff in Hi. destruct Hi as [ru [Hru Hinu]].
    destruct (get_expenses_owner u (s_db s) ru Hinu) as [eu [Heu [Hidu Hou]]].
    assert (Hsame : eu = ev).
    { apply (same_key_same_row e_id (expenses (s_db s))); auto.
      congruence. }
    congruence.
Qed.

End PageTheorems.

(** ** A run of the pages *)

Lemma session_7_reachable : ui_reachable toy_hash sample_label session_7.
Proof.
  assert (Hd : forall y m d, 1000 <= y <= 9999 -> 1 <= m <= 12 ->
                             1 <= d <= 31 -> printable_date (mkDate y m d))
    by (intros; unfold printable_date; simpl; lia).
  assert (H0 : ui_reachable toy_hash sample_label session_0)
    by apply ui_init.
  assert (H1 : ui_reachable toy_hash sample_label session_1).
  { apply (ui_next _ _ session_0); [exact H0|].
    apply (step_create_account toy_hash sample_label session_0).
    reflexivity. }
  assert (H2 : ui_reachable toy_hash sample_label session_2).
  { apply (ui_next _ _ session_1); [exact H1|].
    apply (step_create_account toy_hash sample_label session_1).
    reflexivity. }
  assert (H3 : ui_reachable toy_hash sample_label session_3).
  { apply (ui_next _ _ session_2); [exact H2|].
    apply (step_login toy_hash sample_label session_2). reflexivity. }
  assert (H4 : ui_reachable toy_hash sample_label session_4).
  { apply (ui_next _ _ session_3); [exact H3|].
    apply (step_add_expense toy_hash sample_label session_3 "bob");
      [reflexivity|apply Hd; lia|simpl; tauto|discriminate]. }
  assert (H5 : ui_reachable toy_hash sample_label session_5).
  { apply (ui_next _ _ session_4); [exact H4|].
    apply (step_logout toy_hash sample_label session_4 "bob"). reflexivity. }
  assert (H6 : ui_reachable toy_hash sample_label session_6).
  { apply (ui_next _ _ session_5); [exact H5|].
    apply (step_login toy_hash sample_label session_5). reflexivity. }
  apply (ui_next _ _ session_6); [exact H6|].
  apply (step_add_expense toy_hash sample_label session_6 "alice");
    [reflexivity|apply Hd; lia|simpl; tauto|discriminate].
Qed.

Lemma session_7_deletes : ui_step toy_hash sample_label session_7 session_8.
Proof.
  apply (step_delete_expense toy_hash sample_label session_7 "alice");
    [reflexivity|simpl; tauto].
Qed.

Lemma logged_in_user_has_account_witness :
  user_exists "alice" (s_db session_7) = true
  /\ "alice" <> EmptyString
  /\ exists h, Sql.select_password "alice" (s_db session_7) = Some h.
Proof.
  apply (logged_in_user_has_account toy_hash sample_label session_7 "alice").
  - exact session_7_reachable.
  - reflexivity.
Defined.

Lemma pages_write_checked_rows_witness :
  (forall e, In e (expenses (s_db session_7)) ->
             user_exists (e_username e) (s_db session_7) = true
             /\ In (e_category e) DEFAULT_CATEGORIES
             /\ (1 # 100 <= e_amount e)%Q
             /\ is_iso_date (e_date e) = true
             /\ PyStr.trimmed (e_description e) = true)
  /\ (forall b, In b (budget (s_db session_7)) ->
                user_exists (b_username b) (s_db session_7) = true
                /\ In (b_category b) DEFAULT_CATEGORIES
                /\ (1 # 100 <= b_monthly_limit b)%Q)
  /\ (forall u month_expenses m,
        In m (merged_frame (get_budget u (s_db session_7)) month_expenses) ->
        Qle_bool (m_monthly_limit m) 0 = false).
Proof.
  apply (pages_write_checked_rows toy_hash sample_label session_7).
  exact session_7_reachable.
Defined.

Lemma pages_keep_default_categories_witness :
  (user_exists "bob" (s_db session_7) = true ->
   (forall c, In c (get_categories "bob" (s_db session_7))
              <-> In c DEFAULT_CATEGORIES)
   /\ NoDup (get_categories "bob" (s_db session_7))
   /\ List.length (get_categories "bob" (s_db session_7)) = 5%nat
   /\ Sorted string_le (get_categories "bob" (s_db session_7)))
  /\ (user_exists "bob" (s_db session_7) = false ->
      get_categories "bob" (s_db session_7) = []).
Proof.
  apply (pages_keep_default_categories toy_hash sample_label session_7 "bob").
  exact session_7_reachable.
Defined.

Lemma pages_isolate_users_witness :
  get_expenses "bob" (s_db session_8) = get_expenses "bob" (s_db session_7)
  /\ get_budget "bob" (s_db session_8) = get_budget "bob" (s_db session_7)
  /\ get_categories "bob" (s_db session_8)
     = get_categories "bob" (s_db session_7)
  /\ Sql.select_password "bob" (s_db session_8)
     = Sql.select_password "bob" (s_db session_7).
Proof.
  apply (pages_isolate_users toy_hash sample_label session_7 session_8 "alice").
  - exact session_7_reachable.
  - reflexivity.
  - exact session_7_deletes.
  - discriminate.
Defined.

(** * The month window and stored names *)

Local Open Scope Q_scope.

Lemma month_filter_filter (df : list (DfRow Timestamp)) (dt : Timestamp) :
  month_filter df dt
  = filter (fun r => month_key_eqb (current_month_key (df_date r))
                                   (current_month_key dt)) df.
Proof. destruct df; reflexivity. Qed.

(** X19: the dashboard reads the reference month only.  month_filter keeps
    the rows of the reference year and month, and filtering twice is
    filtering once.  For a user who has expenses already, one more
    expense dated in another month leaves the frame the figures are computed
    from as it was; for a user without expenses it replaces the notice that
    there is no data by figures over an empty frame.  One more expense dated
    in the month is appended to the frame. *)
Theorem dashboard_counts_the_month
        (df : list (DfRow Timestamp)) (now : Timestamp) (r : DfRow Timestamp) :
  (forall x, In x (month_filter df now)
             <-> In x df
                 /\ year (ts_date (df_date x)) = year (ts_date now)
                 /\ month (ts_date (df_date x)) = month (ts_date now))
  /\ month_filter (month_filter df now) now = month_filter df now
  /\ (month_key_eqb (current_month_key (df_date r)) (current_month_key now)
      = false ->
      dashboard (df ++ [r]) now = Figures (month_filter df now)
      /\ (df <> [] -> dashboard (df ++ [r]) now = dashboard df now)
      /\ (df = [] -> dashboard df now = NoDataYet
                     /\ dashboard (df ++ [r]) now = Figures []))
  /\ (month_key_eqb (current_month_key (df_date r)) (current_month_key now)
      = true ->
      dashboard (df ++ [r]) now = Figures (month_filter df now ++ [r])).
Proof.
  split; [intros x; apply month_filter_In|].
  assert (Hdash : forall l, l <> [] ->
                            dashboard l now = Figures (month_filter l now))
    by (intros [|x l] Hl; [contradiction|reflexivity]).
  assert (Hne : (df ++ [r])%list <> []) by (destruct df; discriminate).
  rewrite (Hdash _ Hne), !month_filter_filter.
  split; [apply filter_filter_same|].
  rewrite filter_app. simpl. split.
  - intros Hout. rewrite Hout, app_nil_r. split; [reflexivity|]. split.
    + intros Hdf. now rewrite (Hdash df Hdf), month_filter_filter.
    + intros ->. split; reflexivity.
  - intros Hin. now rewrite Hin.
Qed.

Local Close Scope Q_scope.

Lemma default_categories_trimmed (c : string) :
  In c DEFAULT_CATEGORIES -> PyStr.trimmed c = true.
Proof.
  unfold DEFAULT_CATEGORIES. simpl.
  intros [<-|[<-|[<-|[<-|[<-|[]]]]]]; reflexivity.
Qed.

Lemma strip_trimmed (s : string) : PyStr.trimmed (PyStr.strip s) = true.
Proof. destruct (strip_spec s) as [pre [post [_ [_ [_ H]]]]]. exact H. Qed.

Section StoredNames.

Variable hash : string -> string.

Lemma exec_names_trimmed (op : Op) (db : Db) :
  names_trimmed db -> names_trimmed (exec hash op db).
Proof.
  intros Hinv. destruct op as [u p|u c|u c|u d c a descr|i|u c l]; cbn [exec];
    try exact Hinv.
  - unfold signup_user, Sql.insert_user.
    destruct (existsb (Sql.user_key u) (users db)); cbn [snd]; [exact Hinv|].
    intros r Hr.
    apply (proj1 (seed_categories_rows u DEFAULT_CATEGORIES _)) in Hr.
    destruct Hr as [Hr|[c [Hc ->]]]; [now apply Hinv|].
    now apply default_categories_trimmed.
  - destruct (add_category_result u c db) as [[_ ->]|[_ [_ [_ ->]]]];
      [exact Hinv|].
    intros r Hr. simpl in Hr. apply in_app_or in Hr.
    destruct Hr as [Hr|[<-|[]]]; [now apply Hinv|apply strip_trimmed].
  - unfold delete_category. destruct (_ && _); [|exact Hinv].
    intros r Hr. simpl in Hr. apply filter_In in Hr. now apply Hinv.
Qed.

(** X20: stored category names have no whitespace at their ends, and a name
    has to be passed as it is stored to be deleted.  In every state reached
    from the empty database each category name is trimmed; delete_category
    with a name that is not trimmed changes nothing, so it does not delete
    the category that add_category stored for that very text. *)
Theorem category_names_are_trimmed :
  (forall db, reachable hash db -> names_trimmed db)
  /\ (forall db u c,
        reachable hash db -> PyStr.trimmed c = false ->
        delete_category u c db = db
        /\ (fst (add_category u c db) = true ->
            let db' := delete_category u c (snd (add_category u c db)) in
            db' = snd (add_category u c db)
            /\ In (mkCategory u (PyStr.strip c)) (categories db'))).
Proof.
  assert (Hreach : forall db, reachable hash db -> names_trimmed db).
  { apply reachable_invariant; [intros r []|exact exec_names_trimmed]. }
  assert (Hnoop : forall db u c,
             names_trimmed db -> PyStr.trimmed c = false ->
             delete_category u c db = db).
  { intros db u c Hinv Hc. unfold delete_category.
    destruct (_ && _); [|reflexivity].
    unfold Sql.delete_category_rows.
    replace (filter _ (categories db)) with (categories db);
      [now destruct db|].
    symmetry. apply forallb_filter_id. apply forallb_forall. intros r Hr.
    apply negb_true_iff. destruct (Sql.category_key u c r) eqn:Hk;
      [|reflexivity].
    apply category_key_spec in Hk. subst r.
    specialize (Hinv _ Hr). simpl in Hinv. congruence. }
  split; [exact Hreach|].
  intros db u c Hdb Hc. split; [now apply Hnoop; [apply Hreach|]|].
  intros Hadd. cbv zeta.
  assert (Hdb' : reachable hash (snd (add_category u c db)))
    by exact (reach_step hash db (OpAddCategory u c) Hdb).
  rewrite (Hnoop _ u c (Hreach _ Hdb') Hc). split; [reflexivity|].
  destruct (add_category_result u c db) as [[Hf _]|[_ [_ [_ ->]]]];
    [congruence|].
  simpl. apply in_or_app. right. now left.
Qed.

End StoredNames.
